(** * Motor constraints of chrono/physics/ChLinkMotor.h

    A shallow embedding of the six motor classes declared in
    [ChLinkMotor.h] (linear position / speed / force, rotation angle /
    speed / torque) and of the two base classes [ChLinkMotorLinear] and
    [ChLinkMotorRotation].

    Conventions.
    - A C++ [double] is an exact rational ([Q]); rounding is not modelled.
    - A [std::shared_ptr<ChFunction>] is an address in a store of function
      objects ([None] is the null pointer), so that two holders of the same
      pointer see the same object.
    - A method [void C::m(args)] is a function [C.m args : C.t -> C.t];
      a method that dereferences a function pointer returns an [option].
    - Every class lives in a module that carries its name.

    Only the header is part of the sources: the methods defined inline
    there are transcribed, the ones that are only declared are modelled
    from the specification and marked as such.

    Further sections embed the other sources: [ChPart.cpp] (contact
    material), the event receiver and the stepping loop
    of the extrusion demo, and the chain of beam nodes built by
    [ChronoWheelDesigner.cpp]. *)

From Stdlib Require Import QArith Qabs Lqa ZArith Lia.
From stdpp Require Import base option list gmap strings.

Local Open Scope Q_scope.

(** ** Scalars, vectors and time functions *)

(** [ChVector<>]: three doubles. *)
Record ChVector := mkChVector { x : Q; y : Q; z : Q }.

(** [ChFunction]: the abstract scalar function of time, with its value
    [Get_y] and first derivative [Get_y_dx] (both virtual). *)
Record ChFunction := mkChFunction { Get_y : Q -> Q; Get_y_dx : Q -> Q }.

(** [ChFunction_Const(c)]: the constant function used as default and by the
    application ([std::make_shared<ChFunction_Const>(brakeGearSpeed)]). *)
Definition ChFunction_Const (c : Q) : ChFunction :=
  {| Get_y := fun _ => c; Get_y_dx := fun _ => 0 |}.

(** [ChFunction_Ramp(y0, ang)]: a linear ramp. *)
Definition ChFunction_Ramp (y0 ang : Q) : ChFunction :=
  {| Get_y := fun t => y0 + ang * t; Get_y_dx := fun _ => ang |}.

(** [std::shared_ptr<ChFunction>]. *)
Definition ChFunctionPtr : Type := option nat.

(** The function objects alive in the program, by address. *)
Abbreviation FunctionStore := (gmap nat ChFunction).

(** [p->...]: the object behind a pointer; [None] for the null pointer. *)
Definition deref (h : FunctionStore) (p : ChFunctionPtr) : option ChFunction :=
  a ← p; h !! a.

(** [std::make_shared<F>(...)]: a new object at an unused address. *)
Definition make_shared (f : ChFunction) (h : FunctionStore)
  : FunctionStore * ChFunctionPtr :=
  let a := fresh (dom h) in (<[a := f]> h, Some a).

(** [ChVectorDynamic<>] and the update [v(off) += d]; an index past the end
    has no defined behaviour in the source and yields [None] here. *)
Abbreviation ChVectorDynamic := (list Q).

Definition vec_add (off : nat) (d : Q) (v : list Q) : option (list Q) :=
  e ← v !! off; Some (<[off := e + d]> v).

(** ** Inherited link state *)

(** Modelled from the spec: the classes [ChObj], [ChLink] and
    [ChLinkMateGeneric] that the motors derive from are not in the sources.
    Of their state the motors read the simulation time ([GetChTime()]), the
    stored reaction force and torque ([react_force], [react_torque]) and
    the residual of the motor's own constraint row (the "constraint
    violation" of a ConstraintRow, "recomputed every Update"). *)
Record ChLinkMateGeneric := mkLink {
  ChTime : Q;
  react_force : ChVector;
  react_torque : ChVector;
  violation : Q
}.

Definition GetChTime (l : ChLinkMateGeneric) : Q := ChTime l.

(** Modelled from the spec: what the body/frame provider hands to
    [Update]: "the actuated DOF's current relative value, first
    derivative, and second derivative", computed from the two bodies by the
    relative-kinematics transform, which is outside the sources. *)
Record RelativeMotion := mkRel { rel : Q; rel_dt : Q; rel_dtdt : Q }.

(** Modelled from the spec: [ChLink::Update(mytime)], which stamps the
    link with the simulation time. *)
Definition Link_Update (mytime : Q) (l : ChLinkMateGeneric) : ChLinkMateGeneric :=
  mkLink mytime (react_force l) (react_torque l) (violation l).

Definition Link_set_violation (c : Q) (l : ChLinkMateGeneric) : ChLinkMateGeneric :=
  mkLink (ChTime l) (react_force l) (react_torque l) c.

(** The link with other stored reactions: the code that stores them after
    the solve is not in the sources, any force and torque can be there. *)
Definition Link_with_reactions (force torque : ChVector) (l : ChLinkMateGeneric)
  : ChLinkMateGeneric :=
  mkLink (ChTime l) force torque (violation l).

(** The six relative degrees of freedom between the two frames. *)
Inductive DOF := dof_x | dof_y | dof_z | dof_rx | dof_ry | dof_rz.

Definition all_DOF : list DOF := [dof_x; dof_y; dof_z; dof_rx; dof_ry; dof_rz].

(** Number of [true] answers of a lock-pattern over the six DOF: the rows
    it asks of the assembly ("0 to 5 rows for the non-actuated DOF"). *)
Definition count_rows (locked : DOF -> bool) : nat :=
  length (filter (fun d => locked d = true) all_DOF).

Definition DOF_eqb (a b : DOF) : bool :=
  match a, b with
  | dof_x, dof_x | dof_y, dof_y | dof_z, dof_z
  | dof_rx, dof_rx | dof_ry, dof_ry | dof_rz, dof_rz => true
  | _, _ => false
  end.

(** The stored reaction along (for a translation) or about (for a
    rotation) a degree of freedom. *)
Definition reaction_on (d : DOF) (l : ChLinkMateGeneric) : Q :=
  match d with
  | dof_x => x (react_force l)
  | dof_y => y (react_force l)
  | dof_z => z (react_force l)
  | dof_rx => x (react_torque l)
  | dof_ry => y (react_torque l)
  | dof_rz => z (react_torque l)
  end.

(** ** [ChLinkMotorLinear]: base of the linear motors (actuator along X) *)

Module ChLinkMotorLinear.

(** [enum class GuideConstraint], declared before the first access
    specifier of the class. *)
Inductive GuideConstraint := FREE | PRISMATIC | SPHERICAL.

(** Modelled from the spec: the flags of the inherited link that say, for
    each of the six relative DOF, whether that movement "of frame 1 respect
    to frame 2" is constrained; the class that holds them is not in the
    sources. The flag of x, "the motorized one", is the motor's; the other
    five are the lock-pattern of the guide, "which of the five non-actuated
    relative DOF between two frames are held fixed". *)
Record Guide := mkGuide {
  c_x : bool; c_y : bool; c_z : bool; c_rx : bool; c_ry : bool; c_rz : bool
}.

(** Which DOF a link holds fixed. *)
Definition locked (g : Guide) (d : DOF) : bool :=
  match d with
  | dof_x => c_x g
  | dof_y => c_y g
  | dof_z => c_z g
  | dof_rx => c_rx g
  | dof_ry => c_ry g
  | dof_rz => c_rz g
  end.

Definition actuated : DOF := dof_x.

(** The five arguments of [SetGuideConstraint(bool mc_y, bool mc_z,
    bool mc_rx, bool mc_ry, bool mc_rz)]. *)
Record GuideFlags := mkGuideFlags {
  mc_y : bool; mc_z : bool; mc_rx : bool; mc_ry : bool; mc_rz : bool
}.

Record t := mk {
  link : ChLinkMateGeneric;
  guide : Guide;
  (* aux data for optimization *)
  mpos : Q;
  mpos_dt : Q;
  mpos_dtdt : Q
}.

(** Modelled from the spec: the body of [SetGuideConstraint(bool, bool,
    bool, bool, bool)] is not in the sources; it "sets which movements
    (of frame 1 respect to frame 2) are constrained", each argument in the
    flag of its name, and "the x direction is the motorized one, and is
    never affected by this option". *)
Definition SetGuideConstraint_flags (mc_y mc_z mc_rx mc_ry mc_rz : bool) (m : t) : t :=
  mk (link m) (mkGuide (c_x (guide m)) mc_y mc_z mc_rx mc_ry mc_rz)
     (mpos m) (mpos_dt m) (mpos_dtdt m).

Section NamedGuides.
(** The flags that each named variant stands for are chosen in the body
    of [SetGuideConstraint(const GuideConstraint)], which is not in the
    sources: they are a parameter here. Of this overload too the header
    says that x "is never affected by this option". *)
Variable named : GuideConstraint -> GuideFlags.

Definition SetGuideConstraint (mconstraint : GuideConstraint) (m : t) : t :=
  SetGuideConstraint_flags
    (mc_y (named mconstraint)) (mc_z (named mconstraint))
    (mc_rx (named mconstraint)) (mc_ry (named mconstraint))
    (mc_rz (named mconstraint)) m.
End NamedGuides.

(** Modelled from the spec: the named variants. The specification lists
    them by the names of joints ("Free, Prismatic/Revolute,
    Spherical/Cylindrical, Oldham") and the header says of the setter that
    "by default, acts as a pure prismatic guide", x being the motorised
    direction. A free guide holds none of the five other DOF; a pure
    prismatic guide leaves the translation along x alone and holds all
    five; a spherical guide holds the translations y and z and leaves the
    three rotations alone. *)
Definition named_guide (mconstraint : GuideConstraint) : GuideFlags :=
  match mconstraint with
  | FREE => mkGuideFlags false false false false false
  | PRISMATIC => mkGuideFlags true true true true true
  | SPHERICAL => mkGuideFlags true true false false false
  end.

(** Rows that the guide of a motor contributes at the next assembly: one
    per locked DOF other than the actuated one, whose row is the motor's. *)
Definition guide_rows (m : t) : nat :=
  count_rows (fun d => locked (guide m) d && negb (DOF_eqb d actuated)).

Definition GetActualPos (m : t) : Q := mpos m.
Definition GetActualPos_dt (m : t) : Q := mpos_dt m.
Definition GetActualPos_dtdt (m : t) : Q := mpos_dtdt m.

  (** Modelled from the spec: [ChLinkMotorLinear::Update] is only declared.
      "Motors recompute actual relative pose/speed from body states": the
      link is stamped with the time and the three cached values are
      refreshed from the relative motion of the two frames. *)
Definition Update (r : RelativeMotion) (mytime : Q) (m : t) : t :=
    mk (Link_Update mytime (link m)) (guide m) (rel r) (rel_dt r) (rel_dtdt r).

Definition with_link (l : ChLinkMateGeneric) (m : t) : t :=
    mk l (guide m) (mpos m) (mpos_dt m) (mpos_dtdt m).

End ChLinkMotorLinear.

(** ** [ChLinkMotorLinearPosition]: x(t) = f(t) + offset *)

Module ChLinkMotorLinearPosition.

Record t := mk {
    base : ChLinkMotorLinear.t;
    f_pos : ChFunctionPtr;
    pos_offset : Q
  }.

Definition SetMotionFunction (mf : ChFunctionPtr) (m : t) : t :=
    mk (base m) mf (pos_offset m).
Definition GetMotionFunction (m : t) : ChFunctionPtr := f_pos m.

Definition SetMotionOffset (mo : Q) (m : t) : t := mk (base m) (f_pos m) mo.
Definition GetMotionOffset (m : t) : Q := pos_offset m.

Definition GetActualForce (m : t) : Q :=
    x (react_force (ChLinkMotorLinear.link (base m))).

Definition GetActualPos (m : t) : Q := ChLinkMotorLinear.GetActualPos (base m).
Definition GetChTime (m : t) : Q := GetChTime (ChLinkMotorLinear.link (base m)).

  (** The residual of the motor row left by the last [Update]. *)
Definition row_violation (m : t) : Q :=
    violation (ChLinkMotorLinear.link (base m)).

  (** Modelled from the spec: [Update] is only declared. After the update
      of the base class, "each assembly pass contributes one extra
      constraint row whose violation is actual(t) - f(t) - offset". *)
Definition Update (h : FunctionStore) (r : RelativeMotion) (mytime : Q) (m : t)
    : option t :=
    let b := ChLinkMotorLinear.Update r mytime (base m) in
    f ← deref h (f_pos m);
    let c := ChLinkMotorLinear.mpos b
             - Get_y f (ChTime (ChLinkMotorLinear.link b)) - pos_offset m in
    Some (mk (ChLinkMotorLinear.with_link
                (Link_set_violation c (ChLinkMotorLinear.link b)) b)
             (f_pos m) (pos_offset m)).

  (** Modelled from the spec: the row's "Jacobian time-derivative term
      (Ct) is -f'(t), required because the target moves with time". *)
Definition Ct (h : FunctionStore) (m : t) : option Q :=
    f ← deref h (f_pos m); Some (- Get_y_dx f (GetChTime m)).

  (** Modelled from the spec: [IntLoadConstraint_Ct(off, Qc, c)] is only
      declared; it loads the [Ct] term of the one motor row, scaled by
      [c], at offset [off] of [Qc] ("residual/Ct loading at correct
      offsets"). *)
Definition IntLoadConstraint_Ct (h : FunctionStore) (off : nat)
      (Qc : ChVectorDynamic) (c : Q) (m : t) : option ChVectorDynamic :=
    mCt ← Ct h m; vec_add off (c * mCt) Qc.

End ChLinkMotorLinearPosition.

(** ** Solver variables *)

(** Modelled from the spec: [ChVariablesGeneric] and [ChSystemDescriptor]
    come from headers that are not in the sources. A variable block is
    "(mass, state slot)": the number of scalar unknowns it carries and the
    mass on them; the descriptor keeps the blocks registered with it. *)
Record ChVariablesGeneric := mkVariables { Get_ndof : Z; GetMass : Q }.

Record ChSystemDescriptor := mkDescriptor { vvariables : list ChVariablesGeneric }.

Definition InsertVariables (v : ChVariablesGeneric) (d : ChSystemDescriptor)
  : ChSystemDescriptor :=
  mkDescriptor (vvariables d ++ [v]).

(** ** [ChLinkMotorLinearSpeed]: dx/dt = v(t) *)

Module ChLinkMotorLinearSpeed.

Record t := mk {
  base : ChLinkMotorLinear.t;
  f_speed : ChFunctionPtr;
  pos_offset : Q;
  variable : ChVariablesGeneric;
  aux_dt : Q;  (* used for integrating speed, = pos *)
  aux_dtdt : Q;
  avoid_position_drift : bool
}.

Definition SetSpeedFunction (mf : ChFunctionPtr) (m : t) : t :=
  mk (base m) mf (pos_offset m) (variable m) (aux_dt m) (aux_dtdt m)
     (avoid_position_drift m).
Definition GetSpeedFunction (m : t) : ChFunctionPtr := f_speed m.

Definition SetMotionOffset (mo : Q) (m : t) : t :=
  mk (base m) (f_speed m) mo (variable m) (aux_dt m) (aux_dtdt m)
     (avoid_position_drift m).
Definition GetMotionOffset (m : t) : Q := pos_offset m.

Definition SetAvoidPositionDrift (mb : bool) (m : t) : t :=
  mk (base m) (f_speed m) (pos_offset m) (variable m) (aux_dt m) (aux_dtdt m) mb.
Definition GetAvoidPositionDrift (m : t) : bool := avoid_position_drift m.

Definition GetActualForce (m : t) : Q :=
  x (react_force (ChLinkMotorLinear.link (base m))).

Definition GetChTime (m : t) : Q := GetChTime (ChLinkMotorLinear.link (base m)).

(** [virtual int GetDOF() override { return 1; }] *)
Definition GetDOF (m : t) : Z := 1.

(** Modelled from the spec: [GetDOF_w] is not overridden by the motor;
    the inherited one is not in the sources. The auxiliary variable has
    "its own generalized coordinate and speed": as many speed slots as
    coordinates. *)
Definition GetDOF_w (m : t) : Z := GetDOF m.

(** What the motor adds to the length of the global state: coordinates
    and speeds. *)
Definition state_slots (m : t) : Z := (GetDOF m + GetDOF_w m)%Z.

Definition with_base (b : ChLinkMotorLinear.t) (m : t) : t :=
  mk b (f_speed m) (pos_offset m) (variable m) (aux_dt m) (aux_dtdt m)
     (avoid_position_drift m).

(** Modelled from the spec: the constructor is only declared. The header
    documents its defaults: "by default it is initialized with constant
    speed: df/dt = 1 m/s", offset "by default = 0", avoid position drift
    "default, true"; the specification adds the variable block with
    "mass = 1 on the auxiliary DOF". The base-class part [b] and the two
    integration states are built by code that is not in the sources and
    are arguments. *)
Definition construct (b : ChLinkMotorLinear.t) (aux0 aux1 : Q) (h : FunctionStore)
  : FunctionStore * t :=
  let '(h', p) := make_shared (ChFunction_Const 1) h in
  (h', mk b p 0 (mkVariables 1 1) aux0 aux1 true).

(** Modelled from the spec: "a differential (non-holonomic) constraint row
    whose Ct term is -v(t)". *)
Definition Ct (h : FunctionStore) (m : t) : option Q :=
  f ← deref h (f_speed m); Some (- Get_y f (GetChTime m)).

(** Modelled from the spec: [IntLoadConstraint_Ct(off, Qc, c)] is only
    declared; it loads the [Ct] term of the one motor row, scaled by [c],
    at offset [off] of [Qc]. *)
Definition IntLoadConstraint_Ct (h : FunctionStore) (off : nat)
    (Qc : ChVectorDynamic) (c : Q) (m : t) : option ChVectorDynamic :=
  mCt ← Ct h m; vec_add off (c * mCt) Qc.

(** Modelled from the spec: [InjectVariables(mdescriptor)] is only
    declared; "an extra variable block registered with the solver". *)
Definition InjectVariables (mdescriptor : ChSystemDescriptor) (m : t)
  : ChSystemDescriptor :=
  InsertVariables (variable m) mdescriptor.

(** The motor with other stored reactions. *)
Definition with_reactions (force torque : ChVector) (m : t) : t :=
  with_base (ChLinkMotorLinear.with_link
               (Link_with_reactions force torque (ChLinkMotorLinear.link (base m)))
               (base m)) m.

End ChLinkMotorLinearSpeed.

(** ** [ChLinkMotorLinearForce]: applies F(t), no constraint on x *)

Module ChLinkMotorLinearForce.

Record t := mk {
  base : ChLinkMotorLinear.t;
  f_force : ChFunctionPtr
}.

Definition SetForceFunction (mf : ChFunctionPtr) (m : t) : t := mk (base m) mf.
Definition GetForceFunction (m : t) : ChFunctionPtr := f_force m.

Definition GetChTime (m : t) : Q := GetChTime (ChLinkMotorLinear.link (base m)).

(** [return this->f_force->Get_y(this->GetChTime());] *)
Definition GetActualForce (h : FunctionStore) (m : t) : option Q :=
  f ← deref h (f_force m); Some (Get_y f (GetChTime m)).

End ChLinkMotorLinearForce.

(** ** [ChLinkMotorRotation]: base of the rotational motors (spindle along Z) *)

Module ChLinkMotorRotation.

(** [enum class SpindleConstraint], declared before the first access
    specifier of the class. *)
Inductive SpindleConstraint := FREE | REVOLUTE | CYLINDRICAL | OLDHAM.

(** Modelled from the spec: the flags of the inherited link, one per
    relative DOF, as for the linear base class. The flag of the rotation
    about z, the motorised one, is the motor's; the other five are the
    lock-pattern of the spindle. *)
Record Spindle := mkSpindle {
  c_x : bool; c_y : bool; c_z : bool; c_rx : bool; c_ry : bool; c_rz : bool
}.

Definition locked (s : Spindle) (d : DOF) : bool :=
  match d with
  | dof_x => c_x s
  | dof_y => c_y s
  | dof_z => c_z s
  | dof_rx => c_rx s
  | dof_ry => c_ry s
  | dof_rz => c_rz s
  end.

Definition actuated : DOF := dof_rz.

(** The five arguments of [SetSpindleConstraint(bool mc_x, bool mc_y,
    bool mc_z, bool mc_rx, bool mc_ry)]. *)
Record SpindleFlags := mkSpindleFlags {
  mc_x : bool; mc_y : bool; mc_z : bool; mc_rx : bool; mc_ry : bool
}.

Record t := mk {
  link : ChLinkMateGeneric;
  spindle : Spindle;
  (* aux data for optimization *)
  mrot : Q;
  mrot_dt : Q;
  mrot_dtdt : Q
}.

(** Modelled from the spec: the body of [SetSpindleConstraint(bool, bool,
    bool, bool, bool)] is not in the sources; it stores its five
    arguments, each in the flag of its name, and "the Z direction is the
    motorized one, and is never affected by this option". *)
Definition SetSpindleConstraint_flags (mc_x mc_y mc_z mc_rx mc_ry : bool) (m : t) : t :=
  mk (link m) (mkSpindle mc_x mc_y mc_z mc_rx mc_ry (c_rz (spindle m)))
     (mrot m) (mrot_dt m) (mrot_dtdt m).

Section NamedSpindles.
(** The flags of each named variant are chosen in the body of
    [SetSpindleConstraint(const SpindleConstraint)], which is not in the
    sources: they are a parameter here. *)
Variable named : SpindleConstraint -> SpindleFlags.

Definition SetSpindleConstraint (mconstraint : SpindleConstraint) (m : t) : t :=
  SetSpindleConstraint_flags
    (mc_x (named mconstraint)) (mc_y (named mconstraint))
    (mc_z (named mconstraint)) (mc_rx (named mconstraint))
    (mc_ry (named mconstraint)) m.
End NamedSpindles.

Definition spindle_rows (m : t) : nat :=
  count_rows (fun d => locked (spindle m) d && negb (DOF_eqb d actuated)).

Definition GetActualRot (m : t) : Q := mrot m.
Definition GetActualRot_dt (m : t) : Q := mrot_dt m.
Definition GetActualRot_dtdt (m : t) : Q := mrot_dtdt m.

(** Modelled from the spec: [ChLinkMotorRotation::Update] is only
    declared; as for the linear base class. *)
Definition Update (r : RelativeMotion) (mytime : Q) (m : t) : t :=
  mk (Link_Update mytime (link m)) (spindle m) (rel r) (rel_dt r) (rel_dtdt r).

Definition with_link (l : ChLinkMateGeneric) (m : t) : t :=
  mk l (spindle m) (mrot m) (mrot_dt m) (mrot_dtdt m).

End ChLinkMotorRotation.

(** ** [ChLinkMotorRotationAngle]: r(t) = f(t) + offset *)

Module ChLinkMotorRotationAngle.

Record t := mk {
  base : ChLinkMotorRotation.t;
  f_rot : ChFunctionPtr;
  rot_offset : Q
}.

Definition SetAngleFunction (mf : ChFunctionPtr) (m : t) : t :=
  mk (base m) mf (rot_offset m).
Definition GetAngleFunction (m : t) : ChFunctionPtr := f_rot m.

Definition SetMotionOffset (mo : Q) (m : t) : t := mk (base m) (f_rot m) mo.
Definition GetMotionOffset (m : t) : Q := rot_offset m.

Definition GetActualTorque (m : t) : Q :=
  x (react_torque (ChLinkMotorRotation.link (base m))).

Definition GetActualRot (m : t) : Q := ChLinkMotorRotation.GetActualRot (base m).
Definition GetChTime (m : t) : Q := GetChTime (ChLinkMotorRotation.link (base m)).

Definition row_violation (m : t) : Q :=
  violation (ChLinkMotorRotation.link (base m)).

(** Modelled from the spec: [Update] is only declared; the violation of
    the motor row is "actual(t) - f(t) - offset". *)
Definition Update (h : FunctionStore) (r : RelativeMotion) (mytime : Q) (m : t)
  : option t :=
  let b := ChLinkMotorRotation.Update r mytime (base m) in
  f ← deref h (f_rot m);
  let c := ChLinkMotorRotation.mrot b
           - Get_y f (ChTime (ChLinkMotorRotation.link b)) - rot_offset m in
  Some (mk (ChLinkMotorRotation.with_link
              (Link_set_violation c (ChLinkMotorRotation.link b)) b)
           (f_rot m) (rot_offset m)).

(** Modelled from the spec: the row's [Ct] term "is -f'(t)". *)
Definition Ct (h : FunctionStore) (m : t) : option Q :=
  f ← deref h (f_rot m); Some (- Get_y_dx f (GetChTime m)).

(** Modelled from the spec: [IntLoadConstraint_Ct(off, Qc, c)] is only
    declared; as for the linear position motor. *)
Definition IntLoadConstraint_Ct (h : FunctionStore) (off : nat)
    (Qc : ChVectorDynamic) (c : Q) (m : t) : option ChVectorDynamic :=
  mCt ← Ct h m; vec_add off (c * mCt) Qc.

End ChLinkMotorRotationAngle.

(** ** [ChLinkMotorRotationSpeed]: dr/dt = w(t) *)

Module ChLinkMotorRotationSpeed.

Record t := mk {
  base : ChLinkMotorRotation.t;
  f_speed : ChFunctionPtr;
  rot_offset : Q;
  variable : ChVariablesGeneric;
  aux_dt : Q;  (* used for integrating speed, = angle *)
  aux_dtdt : Q;
  avoid_angle_drift : bool
}.

Definition SetSpeedFunction (mf : ChFunctionPtr) (m : t) : t :=
  mk (base m) mf (rot_offset m) (variable m) (aux_dt m) (aux_dtdt m)
     (avoid_angle_drift m).
Definition GetSpeedFunction (m : t) : ChFunctionPtr := f_speed m.

Definition SetAngleOffset (mo : Q) (m : t) : t :=
  mk (base m) (f_speed m) mo (variable m) (aux_dt m) (aux_dtdt m)
     (avoid_angle_drift m).
Definition GetAngleOffset (m : t) : Q := rot_offset m.

Definition SetAvoidAngleDrift (mb : bool) (m : t) : t :=
  mk (base m) (f_speed m) (rot_offset m) (variable m) (aux_dt m) (aux_dtdt m) mb.
Definition GetAvoidAngleDrift (m : t) : bool := avoid_angle_drift m.

Definition GetActualTorque (m : t) : Q :=
  x (react_torque (ChLinkMotorRotation.link (base m))).

Definition GetChTime (m : t) : Q := GetChTime (ChLinkMotorRotation.link (base m)).

(** [virtual int GetDOF() override { return 1; }] *)
Definition GetDOF (m : t) : Z := 1.

(** Modelled from the spec: the inherited [GetDOF_w], as for the linear
    speed motor. *)
Definition GetDOF_w (m : t) : Z := GetDOF m.

Definition state_slots (m : t) : Z := (GetDOF m + GetDOF_w m)%Z.

Definition with_base (b : ChLinkMotorRotation.t) (m : t) : t :=
  mk b (f_speed m) (rot_offset m) (variable m) (aux_dt m) (aux_dtdt m)
     (avoid_angle_drift m).

(** Modelled from the spec: the constructor is only declared. Defaults of
    the header: "constant angular speed: df/dt = 1 rad/s", offset "by
    default = 0", avoid angle drift "default, true"; the variable block
    has "mass = 1 on the auxiliary DOF". *)
Definition construct (b : ChLinkMotorRotation.t) (aux0 aux1 : Q) (h : FunctionStore)
  : FunctionStore * t :=
  let '(h', p) := make_shared (ChFunction_Const 1) h in
  (h', mk b p 0 (mkVariables 1 1) aux0 aux1 true).

(** Modelled from the spec: the [Ct] term of the differential row "is
    -v(t)". *)
Definition Ct (h : FunctionStore) (m : t) : option Q :=
  f ← deref h (f_speed m); Some (- Get_y f (GetChTime m)).

(** Modelled from the spec: [IntLoadConstraint_Ct(off, Qc, c)] is only
    declared; as for the linear speed motor. *)
Definition IntLoadConstraint_Ct (h : FunctionStore) (off : nat)
    (Qc : ChVectorDynamic) (c : Q) (m : t) : option ChVectorDynamic :=
  mCt ← Ct h m; vec_add off (c * mCt) Qc.

(** Modelled from the spec: [InjectVariables(mdescriptor)] is only
    declared. *)
Definition InjectVariables (mdescriptor : ChSystemDescriptor) (m : t)
  : ChSystemDescriptor :=
  InsertVariables (variable m) mdescriptor.

(** The motor with other stored reactions. *)
Definition with_reactions (force torque : ChVector) (m : t) : t :=
  with_base (ChLinkMotorRotation.with_link
               (Link_with_reactions force torque (ChLinkMotorRotation.link (base m)))
               (base m)) m.

End ChLinkMotorRotationSpeed.

(** ** [ChLinkMotorRotationTorque]: applies T(t), no constraint on the angle *)

Module ChLinkMotorRotationTorque.

Record t := mk {
  base : ChLinkMotorRotation.t;
  f_torque : ChFunctionPtr
}.

Definition SetTorqueFunction (mf : ChFunctionPtr) (m : t) : t := mk (base m) mf.
Definition GetTorqueFunction (m : t) : ChFunctionPtr := f_torque m.

Definition GetChTime (m : t) : Q := GetChTime (ChLinkMotorRotation.link (base m)).

(** [return this->f_torque->Get_y(this->GetChTime());] *)
Definition GetActualTorque (h : FunctionStore) (m : t) : option Q :=
  f ← deref h (f_torque m); Some (Get_y f (GetChTime m)).

End ChLinkMotorRotationTorque.

(** ** Lifetimes: the calls a client can make on a motor *)

(** Calls that change the lock-pattern of a linear motor. *)
Inductive GuideCall :=
| GuideByName (mconstraint : ChLinkMotorLinear.GuideConstraint)
| GuideByFlags (mc_y mc_z mc_rx mc_ry mc_rz : bool).

Definition guide_step (named : ChLinkMotorLinear.GuideConstraint -> ChLinkMotorLinear.GuideFlags)
    (c : GuideCall) (m : ChLinkMotorLinear.t) : ChLinkMotorLinear.t :=
  match c with
  | GuideByName g => ChLinkMotorLinear.SetGuideConstraint named g m
  | GuideByFlags a b c d e => ChLinkMotorLinear.SetGuideConstraint_flags a b c d e m
  end.

Fixpoint guide_run (named : ChLinkMotorLinear.GuideConstraint -> ChLinkMotorLinear.GuideFlags)
    (cs : list GuideCall) (m : ChLinkMotorLinear.t) : ChLinkMotorLinear.t :=
  match cs with
  | [] => m
  | c :: cs' => guide_run named cs' (guide_step named c m)
  end.

(** Calls that change the lock-pattern of a rotational motor. *)
Inductive SpindleCall :=
| SpindleByName (mconstraint : ChLinkMotorRotation.SpindleConstraint)
| SpindleByFlags (mc_x mc_y mc_z mc_rx mc_ry : bool).

Definition spindle_step (named : ChLinkMotorRotation.SpindleConstraint -> ChLinkMotorRotation.SpindleFlags)
    (c : SpindleCall) (m : ChLinkMotorRotation.t) : ChLinkMotorRotation.t :=
  match c with
  | SpindleByName s => ChLinkMotorRotation.SetSpindleConstraint named s m
  | SpindleByFlags a b c d e => ChLinkMotorRotation.SetSpindleConstraint_flags a b c d e m
  end.

Fixpoint spindle_run (named : ChLinkMotorRotation.SpindleConstraint -> ChLinkMotorRotation.SpindleFlags)
    (cs : list SpindleCall) (m : ChLinkMotorRotation.t) : ChLinkMotorRotation.t :=
  match cs with
  | [] => m
  | c :: cs' => spindle_run named cs' (spindle_step named c m)
  end.

(** What can happen to a linear speed motor between its construction and
    its destruction: the setters of the class, any method of the base
    class (update, guide, read-back of the reaction) and the integrator
    writing the two integration states. *)
Inductive LinearSpeedCall :=
| LS_SetSpeedFunction (mf : ChFunctionPtr)
| LS_SetMotionOffset (mo : Q)
| LS_SetAvoidPositionDrift (mb : bool)
| LS_Base (f : ChLinkMotorLinear.t -> ChLinkMotorLinear.t)
| LS_Scatter (a0 a1 : Q).

Definition linear_speed_step (c : LinearSpeedCall) (m : ChLinkMotorLinearSpeed.t)
  : ChLinkMotorLinearSpeed.t :=
  match c with
  | LS_SetSpeedFunction mf => ChLinkMotorLinearSpeed.SetSpeedFunction mf m
  | LS_SetMotionOffset mo => ChLinkMotorLinearSpeed.SetMotionOffset mo m
  | LS_SetAvoidPositionDrift mb => ChLinkMotorLinearSpeed.SetAvoidPositionDrift mb m
  | LS_Base f =>
      ChLinkMotorLinearSpeed.with_base (f (ChLinkMotorLinearSpeed.base m)) m
  | LS_Scatter a0 a1 =>
      ChLinkMotorLinearSpeed.mk
        (ChLinkMotorLinearSpeed.base m) (ChLinkMotorLinearSpeed.f_speed m)
        (ChLinkMotorLinearSpeed.pos_offset m) (ChLinkMotorLinearSpeed.variable m)
        a0 a1 (ChLinkMotorLinearSpeed.avoid_position_drift m)
  end.

Fixpoint linear_speed_run (cs : list LinearSpeedCall) (m : ChLinkMotorLinearSpeed.t)
  : ChLinkMotorLinearSpeed.t :=
  match cs with
  | [] => m
  | c :: cs' => linear_speed_run cs' (linear_speed_step c m)
  end.

(** The same for a rotational speed motor. *)
Inductive RotationSpeedCall :=
| RS_SetSpeedFunction (mf : ChFunctionPtr)
| RS_SetAngleOffset (mo : Q)
| RS_SetAvoidAngleDrift (mb : bool)
| RS_Base (f : ChLinkMotorRotation.t -> ChLinkMotorRotation.t)
| RS_Scatter (a0 a1 : Q).

Definition rotation_speed_step (c : RotationSpeedCall) (m : ChLinkMotorRotationSpeed.t)
  : ChLinkMotorRotationSpeed.t :=
  match c with
  | RS_SetSpeedFunction mf => ChLinkMotorRotationSpeed.SetSpeedFunction mf m
  | RS_SetAngleOffset mo => ChLinkMotorRotationSpeed.SetAngleOffset mo m
  | RS_SetAvoidAngleDrift mb => ChLinkMotorRotationSpeed.SetAvoidAngleDrift mb m
  | RS_Base f =>
      ChLinkMotorRotationSpeed.with_base (f (ChLinkMotorRotationSpeed.base m)) m
  | RS_Scatter a0 a1 =>
      ChLinkMotorRotationSpeed.mk
        (ChLinkMotorRotationSpeed.base m) (ChLinkMotorRotationSpeed.f_speed m)
        (ChLinkMotorRotationSpeed.rot_offset m) (ChLinkMotorRotationSpeed.variable m)
        a0 a1 (ChLinkMotorRotationSpeed.avoid_angle_drift m)
  end.

Fixpoint rotation_speed_run (cs : list RotationSpeedCall) (m : ChLinkMotorRotationSpeed.t)
  : ChLinkMotorRotationSpeed.t :=
  match cs with
  | [] => m
  | c :: cs' => rotation_speed_run cs' (rotation_speed_step c m)
  end.

(** ** Sample objects, used to run the definitions *)

Definition sample_link : ChLinkMateGeneric :=
  mkLink (1 # 2) (mkChVector 7 8 9) (mkChVector 4 5 6) 0.

Definition sample_linear : ChLinkMotorLinear.t :=
  ChLinkMotorLinear.mk sample_link
    (ChLinkMotorLinear.mkGuide true true true true true true) 3 0 0.

Definition sample_rotation : ChLinkMotorRotation.t :=
  ChLinkMotorRotation.mk sample_link
    (ChLinkMotorRotation.mkSpindle true true true true true true) 3 0 0.

(** A store with a ramp [f(t) = 1 + 2 t] at address 0 and the constant
    [-3] at address 1. *)
Definition sample_store : FunctionStore :=
  <[1%nat := ChFunction_Const (-3)]> (<[0%nat := ChFunction_Ramp 1 2]> ∅).

Definition sample_motion : RelativeMotion := mkRel (5 # 2) 2 0.

Definition sample_linear_speed : ChLinkMotorLinearSpeed.t :=
  (ChLinkMotorLinearSpeed.construct sample_linear 0 0 sample_store).2.

Definition sample_rotation_speed : ChLinkMotorRotationSpeed.t :=
  (ChLinkMotorRotationSpeed.construct sample_rotation 0 0 sample_store).2.

Definition sample_linear_position : ChLinkMotorLinearPosition.t :=
  ChLinkMotorLinearPosition.mk sample_linear (Some 0%nat) (1 # 4).

Definition sample_rotation_angle : ChLinkMotorRotationAngle.t :=
  ChLinkMotorRotationAngle.mk sample_rotation (Some 1%nat) (1 # 2).

Definition sample_linear_force : ChLinkMotorLinearForce.t :=
  ChLinkMotorLinearForce.mk sample_linear (Some 0%nat).

Definition sample_rotation_torque : ChLinkMotorRotationTorque.t :=
  ChLinkMotorRotationTorque.mk sample_rotation (Some 1%nat).

(** ** chrono_vehicle/ChPart.cpp: base class of the vehicle subsystems *)


Module ChPart.

(** The members that the constructor of [ChPart.cpp] initialises. *)
Record t := mk {
  m_name : string;
  m_friction : Q;
  m_restitution : Q;
  m_young_modulus : Q;
  m_poisson_ratio : Q;
  m_kn : Q;
  m_kt : Q;
  m_gn : Q;
  m_gt : Q
}.

(** The members are [float]s: [0.7f], [0.1f] and [0.3f] are the single
    precision numbers nearest to 0.7, 0.1 and 0.3; the other initial
    values are whole numbers that a [float] holds exactly. *)
Definition construct (name : string) : t :=
  mk name (11744051 # 16777216) (13421773 # 134217728) 1e7
     (5033165 # 16777216) 2e6 2e5 40 20.

Definition SetContactMaterialProperties (young_modulus poisson_ratio : Q) (p : t) : t :=
  mk (m_name p) (m_friction p) (m_restitution p) young_modulus poisson_ratio
     (m_kn p) (m_kt p) (m_gn p) (m_gt p).

Definition SetContactMaterialCoefficients (kn gn kt gt : Q) (p : t) : t :=
  mk (m_name p) (m_friction p) (m_restitution p)
     (m_young_modulus p) (m_poisson_ratio p) kn kt gn gt.

(** The calls that change the contact material of a part. *)
Inductive MaterialCall :=
| Properties (young_modulus poisson_ratio : Q)
| Coefficients (kn gn kt gt : Q).

Definition material_step (c : MaterialCall) (p : t) : t :=
  match c with
  | Properties ym pr => SetContactMaterialProperties ym pr p
  | Coefficients kn gn kt gt => SetContactMaterialCoefficients kn gn kt gt p
  end.

Fixpoint material_run (cs : list MaterialCall) (p : t) : t :=
  match cs with
  | [] => p
  | c :: cs' => material_run cs' (material_step c p)
  end.

(** The arguments of the last call of each kind in a sequence, if any. *)
Fixpoint last_Properties (cs : list MaterialCall) : option (Q * Q) :=
  match cs with
  | [] => None
  | c :: cs' =>
      match last_Properties cs', c with
      | Some r, _ => Some r
      | None, Properties ym pr => Some (ym, pr)
      | None, Coefficients _ _ _ _ => None
      end
  end.

Fixpoint last_Coefficients (cs : list MaterialCall) : option (Q * Q * Q * Q) :=
  match cs with
  | [] => None
  | c :: cs' =>
      match last_Coefficients cs', c with
      | Some r, _ => Some r
      | None, Coefficients kn gn kt gt => Some (kn, gn, kt, gt)
      | None, Properties _ _ => None
      end
  end.

End ChPart.

(** ** The extrusion demo: [MyEventReceiver] and the stepping loop *)

Module MyEventReceiver.

(** The identifiers of the GUI controls (the anonymous [enum]). *)
Definition GUI_ID_SCROLLBAR_WireElementLength : Z := 100.
Definition GUI_ID_SCROLLBAR_WireDiameter : Z := 101.
Definition GUI_ID_SCROLLBAR_WireYoungModulus : Z := 102.
Definition GUI_ID_SCROLLBAR_WireShearModulus : Z := 103.
Definition GUI_ID_SCROLLBAR_WireRayleighDamping : Z := 104.
Definition GUI_ID_SPINBOX_BrakeGearLobeNumber : Z := 105.
Definition GUI_ID_SCROLLBAR_BrakeGearLobeWidth : Z := 106.
Definition GUI_ID_SCROLLBAR_BrakeGearLobeThickness : Z := 107.
Definition GUI_ID_SCROLLBAR_BrakeGearLobePrimitiveRadius : Z := 108.
Definition GUI_ID_SCROLLBAR_BrakeGearLobeInnerRadius : Z := 109.
Definition GUI_ID_SCROLLBAR_BrakeGearLobeOuterRadius : Z := 110.
Definition GUI_ID_SCROLLBAR_ExtruderSpeed : Z := 111.
Definition GUI_ID_SCROLLBAR_BrakeGearSpeed : Z := 112.
Definition GUI_ID_SCROLLBAR_ExtrusionBrakeSpeedRatio : Z := 113.
Definition GUI_ID_BUTTON_ConfigurationCompleted : Z := 114.
Definition GUI_ID_BUTTON_StartSimulation : Z := 115.
Definition GUI_ID_BUTTON_PauseSimulation : Z := 116.
Definition GUI_ID_BUTTON_StopSimulation : Z := 117.

(** The value that a slider at position [pos] stands for, written all
    over the receiver as [base + base * (((double)(pos - 50)) / 50.0)]. *)
Definition slider_value (base : Q) (pos : Z) : Q :=
  base + base * (inject_Z (pos - 50) / 50.0).

(** [mwire] (a [ChBeamSectionAdvanced]) and [mWireExtruder] (a
    [ChExtruderBeamEuler]): the classes are not in the sources; each field
    is the argument of the last call of the setter of that name. *)
Record Wire := mkWire {
  AsCircularSection : Q;
  YoungModulus : Q;
  GshearModulus : Q;
  BeamRaleyghDamping : Q
}.

Record Extruder := mkExtruder {
  BeamElementLength : Q;
  ExtruderSpeed : Q
}.

(** The three global flags, the members of the receiver that [OnEvent]
    writes, and the function objects alive. What the receiver writes to
    the widgets (texts, positions, enabled flags) is left out; what it
    reads from them comes with the event. *)
Record t := mk {
  isConfigurationCompleted : bool;
  isSimulationStarted : bool;
  isSimulationPaused : bool;
  device_closed : bool;
  functions : gmap nat ChFunction;
  mwire : Wire;
  mWireExtruder : Extruder;
  mLowBrakeGearLink : option ChLinkMotorRotationSpeed.t;
  mHighBrakeGearLink : option ChLinkMotorRotationSpeed.t
}.

Inductive EEVENT_TYPE := EET_GUI_EVENT | EET_OTHER_EVENT.

Inductive EGUI_EVENT_TYPE :=
| EGET_SCROLL_BAR_CHANGED | EGET_SPINBOX_CHANGED | EGET_BUTTON_CLICKED | EGET_OTHER.

(** An [SEvent], with what [OnEvent] reads around it: the identifier and
    the position of the caller, the position of the brake gear speed
    slider at that moment, and the two links that
    [std::make_shared<ChLinkMotorRotationSpeed>()] and [Initialize] would
    make, by code that is not in the sources. *)
Record SEvent := mkSEvent {
  EventType : EEVENT_TYPE;
  GUIEvent_EventType : EGUI_EVENT_TYPE;
  Caller_getID : Z;
  Caller_getPos : Z;
  scrollbar_BrakeGearSpeed_getPos : Z;
  made_LowBrakeGearLink : ChLinkMotorRotationSpeed.t;
  made_HighBrakeGearLink : ChLinkMotorRotationSpeed.t
}.

Definition with_wire (w : Wire) (s : t) : t :=
  mk (isConfigurationCompleted s) (isSimulationStarted s) (isSimulationPaused s)
     (device_closed s) (functions s) w (mWireExtruder s)
     (mLowBrakeGearLink s) (mHighBrakeGearLink s).

Definition with_extruder (e : Extruder) (s : t) : t :=
  mk (isConfigurationCompleted s) (isSimulationStarted s) (isSimulationPaused s)
     (device_closed s) (functions s) (mwire s) e
     (mLowBrakeGearLink s) (mHighBrakeGearLink s).

Definition with_flags (completed started paused closed : bool) (s : t) : t :=
  mk completed started paused closed (functions s) (mwire s) (mWireExtruder s)
     (mLowBrakeGearLink s) (mHighBrakeGearLink s).

Definition with_links (h : gmap nat ChFunction)
    (low high : option ChLinkMotorRotationSpeed.t) (s : t) : t :=
  mk (isConfigurationCompleted s) (isSimulationStarted s) (isSimulationPaused s)
     (device_closed s) h (mwire s) (mWireExtruder s) low high.

(** [if (id == which) { ... }] *)
Definition when_id (id which : Z) (body : t -> option t) (s : t) : option t :=
  if (id =? which)%Z then body s else Some s.

(** The brake gear speed slider: the two links get new constant speeds,
    opposite to each other, but only once the configuration is completed.
    A call through a null link has no defined behaviour: [None]. *)
Definition brake_gear_speed_changed (pos : Z) (s : t) : option t :=
  let brakeGearSpeed := slider_value 0.1 pos in
  if isConfigurationCompleted s then
    let '(h1, mLowBrakeGear_SpeedFunction) :=
      make_shared (ChFunction_Const (- brakeGearSpeed)) (functions s) in
    let '(h2, mHighBrakeGear_SpeedFunction) :=
      make_shared (ChFunction_Const brakeGearSpeed) h1 in
    low ← mLowBrakeGearLink s;
    high ← mHighBrakeGearLink s;
    Some (with_links h2
            (Some (ChLinkMotorRotationSpeed.SetSpeedFunction
                     mLowBrakeGear_SpeedFunction low))
            (Some (ChLinkMotorRotationSpeed.SetSpeedFunction
                     mHighBrakeGear_SpeedFunction high)) s)
  else Some s.

(** [case EGET_SCROLL_BAR_CHANGED]: the [if]s one after the other. The
    five sliders of the lobes of the brake gears only change a text. *)
Definition scroll_bar_changed (event : SEvent) (s : t) : option t :=
  let id := Caller_getID event in
  let pos := Caller_getPos event in
  s ← when_id id GUI_ID_SCROLLBAR_WireElementLength
        (fun s => Some (with_extruder
           (mkExtruder (slider_value 0.005 pos) (ExtruderSpeed (mWireExtruder s))) s)) s;
  s ← when_id id GUI_ID_SCROLLBAR_WireDiameter
        (fun s => Some (with_wire
           (mkWire (slider_value 0.005 pos) (YoungModulus (mwire s))
                   (GshearModulus (mwire s)) (BeamRaleyghDamping (mwire s))) s)) s;
  s ← when_id id GUI_ID_SCROLLBAR_WireYoungModulus
        (fun s => Some (with_wire
           (mkWire (AsCircularSection (mwire s)) (slider_value 0.05e9 pos)
                   (GshearModulus (mwire s)) (BeamRaleyghDamping (mwire s))) s)) s;
  s ← when_id id GUI_ID_SCROLLBAR_WireShearModulus
        (fun s => Some (with_wire
           (mkWire (AsCircularSection (mwire s)) (YoungModulus (mwire s))
                   (slider_value 0.005e9 pos) (BeamRaleyghDamping (mwire s))) s)) s;
  s ← when_id id GUI_ID_SCROLLBAR_WireRayleighDamping
        (fun s => Some (with_wire
           (mkWire (AsCircularSection (mwire s)) (YoungModulus (mwire s))
                   (GshearModulus (mwire s)) (slider_value 0.05 pos)) s)) s;
  s ← when_id id GUI_ID_SCROLLBAR_BrakeGearLobeWidth Some s;
  s ← when_id id GUI_ID_SCROLLBAR_BrakeGearLobeThickness Some s;
  s ← when_id id GUI_ID_SCROLLBAR_BrakeGearLobePrimitiveRadius Some s;
  s ← when_id id GUI_ID_SCROLLBAR_BrakeGearLobeInnerRadius Some s;
  s ← when_id id GUI_ID_SCROLLBAR_BrakeGearLobeOuterRadius Some s;
  s ← when_id id GUI_ID_SCROLLBAR_ExtruderSpeed
        (fun s => Some (with_extruder
           (mkExtruder (BeamElementLength (mWireExtruder s)) (slider_value 0.05 pos)) s)) s;
  s ← when_id id GUI_ID_SCROLLBAR_BrakeGearSpeed (brake_gear_speed_changed pos) s;
  when_id id GUI_ID_SCROLLBAR_ExtrusionBrakeSpeedRatio
    (fun s =>
       let brakeGearSpeed := slider_value 0.1 (scrollbar_BrakeGearSpeed_getPos event) in
       let extrusionBrakeSpeedRatio := slider_value 0.05 pos in
       let extruderSpeed := extrusionBrakeSpeedRatio * brakeGearSpeed in
       Some (with_extruder
               (mkExtruder (BeamElementLength (mWireExtruder s)) extruderSpeed) s)) s.

(** The 'configuration done' button: two links are made and given
    opposite constant speeds; the speed of the high one is read back for
    the slider. *)
Definition configuration_completed (event : SEvent) (s : t) : option t :=
  let brakeGearSpeed := slider_value 0.1 (scrollbar_BrakeGearSpeed_getPos event) in
  let '(h1, mgear_speedLOW) :=
    make_shared (ChFunction_Const (- brakeGearSpeed)) (functions s) in
  let low := ChLinkMotorRotationSpeed.SetSpeedFunction mgear_speedLOW
               (made_LowBrakeGearLink event) in
  let '(h2, mgear_speedHI) := make_shared (ChFunction_Const brakeGearSpeed) h1 in
  let high := ChLinkMotorRotationSpeed.SetSpeedFunction mgear_speedHI
                (made_HighBrakeGearLink event) in
  shown ← deref h2 (ChLinkMotorRotationSpeed.GetSpeedFunction high);
  Some (with_flags true false true (device_closed s)
          (with_links h2 (Some low) (Some high) s)).

(** [case EGET_BUTTON_CLICKED]: each button returns
    [isSimulationStarted]; a click on anything else falls through. *)
Definition button_clicked (event : SEvent) (s : t) : option (t * bool) :=
  let id := Caller_getID event in
  if (id =? GUI_ID_BUTTON_ConfigurationCompleted)%Z then
    s' ← configuration_completed event s; Some (s', isSimulationStarted s')
  else if (id =? GUI_ID_BUTTON_StartSimulation)%Z then
    let s' := with_flags (isConfigurationCompleted s) true false (device_closed s) s in
    Some (s', isSimulationStarted s')
  else if (id =? GUI_ID_BUTTON_PauseSimulation)%Z then
    let s' := with_flags (isConfigurationCompleted s) false true (device_closed s) s in
    Some (s', isSimulationStarted s')
  else if (id =? GUI_ID_BUTTON_StopSimulation)%Z then
    let s' := with_flags (isConfigurationCompleted s) false false true s in
    Some (s', isSimulationStarted s')
  else Some (s, false).

Definition OnEvent (event : SEvent) (s : t) : option (t * bool) :=
  match EventType event with
  | EET_GUI_EVENT =>
      match GUIEvent_EventType event with
      | EGET_SCROLL_BAR_CHANGED => s' ← scroll_bar_changed event s; Some (s', false)
      | EGET_SPINBOX_CHANGED => Some (s, false)
      | EGET_BUTTON_CLICKED => button_clicked event s
      | EGET_OTHER => Some (s, false)
      end
  | EET_OTHER_EVENT => Some (s, false)
  end.

(** The events of a session, one after the other. *)
Fixpoint run (events : list SEvent) (s : t) : option t :=
  match events with
  | [] => Some s
  | event :: events' => r ← OnEvent event s; run events' r.1
  end.

(** [if (isSimulationStarted && !isSimulationPaused)] of the loop of
    [main]: whether the next pass calls [DoStep]. *)
Definition steps (s : t) : bool :=
  isSimulationStarted s && negb (isSimulationPaused s).

(** The receiver as [main] makes it: flags down, null links, the wire and
    the extruder as [main] sets them. *)
Definition initial (h : gmap nat ChFunction) : t :=
  mk false false false false h
     (mkWire 0.012 0.01e9 (0.01e9 * 0.3) 0.1)
     (mkExtruder 0.020 0.04)
     None None.

End MyEventReceiver.

(** ** ChronoWheelDesigner.cpp: the chain of beam nodes and elements *)

Module ChronoWheelDesigner.

(** A node is known by its position; every node gets a small box at the
    same place and a spherical link between the two. *)
Record Chain := mkChain {
  beam_nodes : list ChVector;
  beam_nodes_boxes : list ChVector;
  constraints : list (ChVector * ChVector);
  elements : list (ChVector * ChVector)
}.

(** [ChVector<> position(length * (in / double(N_nodes - 1)), 0.2, 0)] *)
Definition position (length : Q) (N_nodes in_ : Z) : ChVector :=
  mkChVector (length * (inject_Z in_ / inject_Z (N_nodes - 1))) 0.2 0.

(** Step 4, [for (int in = 0; in < N_nodes; ++in)]: the nodes, their
    boxes and their links, in the order of creation. *)
Definition create_nodes (length : Q) (N_nodes : Z) : list ChVector :=
  position length N_nodes <$> seqZ 0 N_nodes.

Definition create_boxes (nodes : list ChVector) : list ChVector :=
  (fun node => node) <$> nodes.

Definition create_constraints (nodes boxes : list ChVector)
  : list (ChVector * ChVector) :=
  zip nodes boxes.

(** Step 5, [for (int ie = 0; ie < N_nodes - 1; ++ie)]:
    [element->SetNodes(beam_nodes[ie], beam_nodes[ie + 1])]. An index past
    the end of the vector has no defined behaviour: [None]. *)
Definition create_elements (nodes : list ChVector) (N_nodes : Z)
  : option (list (ChVector * ChVector)) :=
  mapM (fun ie : Z =>
          a ← nodes !! Z.to_nat ie;
          b ← nodes !! Z.to_nat (ie + 1);
          Some (a, b))
       (seqZ 0 (N_nodes - 1)).

Definition build (length : Q) (N_nodes : Z) : option Chain :=
  let nodes := create_nodes length N_nodes in
  let boxes := create_boxes nodes in
  es ← create_elements nodes N_nodes;
  Some (mkChain nodes boxes (create_constraints nodes boxes) es).

(** [double length = 1.2; int N_nodes = 16;] *)
Definition main_chain : option Chain := build 1.2 16.

End ChronoWheelDesigner.

(** ** What holds of the receiver between two events *)

(** The two brake gear links exist and turn against each other: their
    speed functions are two constants, one the opposite of the other. *)
Definition counter_rotating (s : MyEventReceiver.t) : Prop :=
  exists (low high : ChLinkMotorRotationSpeed.t) (v : Q),
    MyEventReceiver.mLowBrakeGearLink s = Some low
    /\ MyEventReceiver.mHighBrakeGearLink s = Some high
    /\ deref (MyEventReceiver.functions s)
             (ChLinkMotorRotationSpeed.GetSpeedFunction low)
       = Some (ChFunction_Const (- v))
    /\ deref (MyEventReceiver.functions s)
             (ChLinkMotorRotationSpeed.GetSpeedFunction high)
       = Some (ChFunction_Const v).

(** Started and paused are never raised together; the links are null
    until the configuration is completed and counter-rotating after. *)
Definition Receiver_invariant (s : MyEventReceiver.t) : Prop :=
  MyEventReceiver.isSimulationStarted s && MyEventReceiver.isSimulationPaused s = false
  /\ if MyEventReceiver.isConfigurationCompleted s
     then counter_rotating s
     else MyEventReceiver.mLowBrakeGearLink s = None
          /\ MyEventReceiver.mHighBrakeGearLink s = None.

(** The wire and the elements cut from it have positive dimensions and
    moduli. *)
Definition positive_wire (s : MyEventReceiver.t) : Prop :=
  0 < MyEventReceiver.AsCircularSection (MyEventReceiver.mwire s)
  /\ 0 < MyEventReceiver.YoungModulus (MyEventReceiver.mwire s)
  /\ 0 < MyEventReceiver.GshearModulus (MyEventReceiver.mwire s)
  /\ 0 < MyEventReceiver.BeamRaleyghDamping (MyEventReceiver.mwire s)
  /\ 0 < MyEventReceiver.BeamElementLength (MyEventReceiver.mWireExtruder s).

(** The bases of the sliders of the receiver: 0.005 for the lengths,
    0.05e9 and 0.005e9 for the two moduli, 0.05 for the damping, the
    extruder speed and the speed ratio, 0.1 for the brake gear speed. *)
Definition slider_bases : list Q := [0.005; 0.05e9; 0.005e9; 0.05; 0.1].

(** A click on the start button. *)
Definition is_start_click (event : MyEventReceiver.SEvent) : Prop :=
  MyEventReceiver.EventType event = MyEventReceiver.EET_GUI_EVENT
  /\ MyEventReceiver.GUIEvent_EventType event = MyEventReceiver.EGET_BUTTON_CLICKED
  /\ MyEventReceiver.Caller_getID event = MyEventReceiver.GUI_ID_BUTTON_StartSimulation.

(** The sliders of the wire are made with [setMin(10)]: an event of one
    of them carries a position of 10 at least. *)
Definition wire_slider_in_range (event : MyEventReceiver.SEvent) : Prop :=
  (MyEventReceiver.GUI_ID_SCROLLBAR_WireElementLength
     <= MyEventReceiver.Caller_getID event
     <= MyEventReceiver.GUI_ID_SCROLLBAR_WireRayleighDamping)%Z ->
  (10 <= MyEventReceiver.Caller_getPos event)%Z.

Definition sample_event (type : MyEventReceiver.EGUI_EVENT_TYPE) (id pos : Z)
  : MyEventReceiver.SEvent :=
  MyEventReceiver.mkSEvent MyEventReceiver.EET_GUI_EVENT type id pos 100
    sample_rotation_speed sample_rotation_speed.

(** The calls of a speed motor that are setters of the class itself. *)
Definition LS_is_setter (c : LinearSpeedCall) : bool :=
  match c with
  | LS_SetSpeedFunction _ | LS_SetMotionOffset _ | LS_SetAvoidPositionDrift _ => true
  | LS_Base _ | LS_Scatter _ _ => false
  end.

Definition RS_is_setter (c : RotationSpeedCall) : bool :=
  match c with
  | RS_SetSpeedFunction _ | RS_SetAngleOffset _ | RS_SetAvoidAngleDrift _ => true
  | RS_Base _ | RS_Scatter _ _ => false
  end.

(** * Properties *)

(** ** The store of function objects and the residual vector *)

Lemma deref_Some (h : FunctionStore) (a : nat) :
  deref h (Some a) = h !! a.
Proof. reflexivity. Qed.

Lemma deref_null (h : FunctionStore) : deref h None = None.
Proof. reflexivity. Qed.

(** A new object is found behind the pointer that [make_shared] returns. *)
Lemma deref_make_shared (f : ChFunction) (h : FunctionStore) :
  deref (make_shared f h).1 (make_shared f h).2 = Some f.
Proof.
  unfold make_shared; simpl. apply lookup_insert_eq.
Qed.

(** The objects that were alive stay where they are. *)
Lemma make_shared_keeps (f g : ChFunction) (h : FunctionStore) (a : nat) :
  h !! a = Some g -> (make_shared f h).1 !! a = Some g.
Proof.
  intros Ha. unfold make_shared; simpl.
  rewrite lookup_insert_ne; [exact Ha|].
  intros E. pose proof (is_fresh (dom h)) as Hfresh.
  rewrite E in Hfresh. apply Hfresh. apply elem_of_dom. eauto.
Qed.

Lemma vec_add_Some (off : nat) (d e : Q) (v : list Q) :
  v !! off = Some e -> vec_add off d v = Some (<[off := e + d]> v).
Proof. intros H. unfold vec_add. rewrite H. reflexivity. Qed.

Lemma vec_add_None (off : nat) (d : Q) (v : list Q) :
  (length v <= off)%nat -> vec_add off d v = None.
Proof.
  intros H. unfold vec_add. rewrite (lookup_ge_None_2 v off H). reflexivity.
Qed.

(** [v(off) += d] touches one entry. *)
Lemma vec_add_one_row (off : nat) (d : Q) (v v' : list Q) :
  vec_add off d v = Some v' ->
  length v' = length v /\ forall i : nat, i <> off -> v' !! i = v !! i.
Proof.
  unfold vec_add. destruct (v !! off) as [e|] eqn:E; simpl; [|discriminate].
  intros [= <-]. split.
  - apply length_insert.
  - intros i Hi. apply list_lookup_insert_ne. congruence.
Qed.

Lemma within_tolerance (a f o tol : Q) :
  Qabs (a - f - o) <= tol -> Qabs (a - (f + o)) <= tol.
Proof.
  intros H. assert (E : a - (f + o) == a - f - o) by ring.
  rewrite E. exact H.
Qed.

(** ** Position mode *)

(** The update of a position motor succeeds as soon as its function
    pointer is not null, and leaves the offset and the function alone. *)
Lemma LinearPosition_Update_Some (h : FunctionStore) (r : RelativeMotion) (t : Q)
    (m : ChLinkMotorLinearPosition.t) (f : ChFunction) :
  deref h (ChLinkMotorLinearPosition.f_pos m) = Some f ->
  exists m', ChLinkMotorLinearPosition.Update h r t m = Some m'
    /\ ChLinkMotorLinearPosition.f_pos m' = ChLinkMotorLinearPosition.f_pos m
    /\ ChLinkMotorLinearPosition.pos_offset m' = ChLinkMotorLinearPosition.pos_offset m
    /\ ChLinkMotorLinearPosition.GetChTime m' = t
    /\ ChLinkMotorLinearPosition.GetActualPos m' = rel r
    /\ ChLinkMotorLinearPosition.row_violation m'
       = rel r - Get_y f t - ChLinkMotorLinearPosition.pos_offset m.
Proof.
  intros Hf. unfold ChLinkMotorLinearPosition.Update. rewrite Hf. simpl.
  eexists. split; [reflexivity|]. repeat split.
Qed.

Lemma RotationAngle_Update_Some (h : FunctionStore) (r : RelativeMotion) (t : Q)
    (m : ChLinkMotorRotationAngle.t) (f : ChFunction) :
  deref h (ChLinkMotorRotationAngle.f_rot m) = Some f ->
  exists m', ChLinkMotorRotationAngle.Update h r t m = Some m'
    /\ ChLinkMotorRotationAngle.f_rot m' = ChLinkMotorRotationAngle.f_rot m
    /\ ChLinkMotorRotationAngle.rot_offset m' = ChLinkMotorRotationAngle.rot_offset m
    /\ ChLinkMotorRotationAngle.GetChTime m' = t
    /\ ChLinkMotorRotationAngle.GetActualRot m' = rel r
    /\ ChLinkMotorRotationAngle.row_violation m'
       = rel r - Get_y f t - ChLinkMotorRotationAngle.rot_offset m.
Proof.
  intros Hf. unfold ChLinkMotorRotationAngle.Update. rewrite Hf. simpl.
  eexists. split; [reflexivity|]. repeat split.
Qed.

(** C1. Position mode (linear position motor and rotation angle motor).
    Whatever the relative motion [r] of the two frames and the time [t],
    an update of a motor whose function pointer designates [f] succeeds,
    and then: the violation of the motor row is
    [actual - f(t) - offset]; the [Ct] term of the row is [- f'(t)], and
    [IntLoadConstraint_Ct] adds [c] times that term at its offset of [Qc];
    and once the solver has brought the violation below a tolerance, the
    actual coordinate is within that tolerance of [f(t) + offset]. *)
Theorem C1_position_row_and_reproduction
    (h : FunctionStore) (r : RelativeMotion) (t : Q)
    (ml : ChLinkMotorLinearPosition.t) (fl : ChFunction)
    (mr : ChLinkMotorRotationAngle.t) (fr : ChFunction) :
  deref h (ChLinkMotorLinearPosition.GetMotionFunction ml) = Some fl ->
  deref h (ChLinkMotorRotationAngle.GetAngleFunction mr) = Some fr ->
  (exists ml', ChLinkMotorLinearPosition.Update h r t ml = Some ml'
     /\ ChLinkMotorLinearPosition.row_violation ml'
        = ChLinkMotorLinearPosition.GetActualPos ml' - Get_y fl t
          - ChLinkMotorLinearPosition.GetMotionOffset ml'
     /\ ChLinkMotorLinearPosition.Ct h ml' = Some (- Get_y_dx fl t)
     /\ (forall (off : nat) (Qc : list Q) (c e : Q), Qc !! off = Some e ->
           ChLinkMotorLinearPosition.IntLoadConstraint_Ct h off Qc c ml'
           = Some (<[off := e + c * - Get_y_dx fl t]> Qc))
     /\ (forall tol : Q,
           Qabs (ChLinkMotorLinearPosition.row_violation ml') <= tol ->
           Qabs (ChLinkMotorLinearPosition.GetActualPos ml'
                 - (Get_y fl t + ChLinkMotorLinearPosition.GetMotionOffset ml')) <= tol))
  /\
  (exists mr', ChLinkMotorRotationAngle.Update h r t mr = Some mr'
     /\ ChLinkMotorRotationAngle.row_violation mr'
        = ChLinkMotorRotationAngle.GetActualRot mr' - Get_y fr t
          - ChLinkMotorRotationAngle.GetMotionOffset mr'
     /\ ChLinkMotorRotationAngle.Ct h mr' = Some (- Get_y_dx fr t)
     /\ (forall (off : nat) (Qc : list Q) (c e : Q), Qc !! off = Some e ->
           ChLinkMotorRotationAngle.IntLoadConstraint_Ct h off Qc c mr'
           = Some (<[off := e + c * - Get_y_dx fr t]> Qc))
     /\ (forall tol : Q,
           Qabs (ChLinkMotorRotationAngle.row_violation mr') <= tol ->
           Qabs (ChLinkMotorRotationAngle.GetActualRot mr'
                 - (Get_y fr t + ChLinkMotorRotationAngle.GetMotionOffset mr')) <= tol)).
Proof.
  intros Hl Hr. split.
  - destruct (LinearPosition_Update_Some h r t ml fl Hl)
      as (ml' & HU & Hf & Ho & Ht & Ha & Hv).
    assert (HCt : ChLinkMotorLinearPosition.Ct h ml' = Some (- Get_y_dx fl t)).
    { unfold ChLinkMotorLinearPosition.Ct. rewrite Hf.
      unfold ChLinkMotorLinearPosition.GetMotionFunction in Hl.
      rewrite Hl. simpl. rewrite Ht. reflexivity. }
    exists ml'. split; [exact HU|].
    unfold ChLinkMotorLinearPosition.GetMotionOffset.
    rewrite Hv, Ha, Ho. repeat split.
    + exact HCt.
    + intros off Qc c e He.
      unfold ChLinkMotorLinearPosition.IntLoadConstraint_Ct.
      rewrite HCt. simpl. apply vec_add_Some, He.
    + intros tol. apply within_tolerance.
  - destruct (RotationAngle_Update_Some h r t mr fr Hr)
      as (mr' & HU & Hf & Ho & Ht & Ha & Hv).
    assert (HCt : ChLinkMotorRotationAngle.Ct h mr' = Some (- Get_y_dx fr t)).
    { unfold ChLinkMotorRotationAngle.Ct. rewrite Hf.
      unfold ChLinkMotorRotationAngle.GetAngleFunction in Hr.
      rewrite Hr. simpl. rewrite Ht. reflexivity. }
    exists mr'. split; [exact HU|].
    unfold ChLinkMotorRotationAngle.GetMotionOffset.
    rewrite Hv, Ha, Ho. repeat split.
    + exact HCt.
    + intros off Qc c e He.
      unfold ChLinkMotorRotationAngle.IntLoadConstraint_Ct.
      rewrite HCt. simpl. apply vec_add_Some, He.
    + intros tol. apply within_tolerance.
Qed.

Lemma C1_position_row_and_reproduction_witness :
  deref sample_store (ChLinkMotorLinearPosition.GetMotionFunction sample_linear_position)
  = Some (ChFunction_Ramp 1 2)
  /\ deref sample_store (ChLinkMotorRotationAngle.GetAngleFunction sample_rotation_angle)
     = Some (ChFunction_Const (-3))
  /\ (exists ml',
        ChLinkMotorLinearPosition.Update sample_store sample_motion (3 # 4)
          sample_linear_position = Some ml'
        /\ ChLinkMotorLinearPosition.Ct sample_store ml' = Some (- (2)))
  /\ (exists mr',
        ChLinkMotorRotationAngle.Update sample_store sample_motion (3 # 4)
          sample_rotation_angle = Some mr'
        /\ ChLinkMotorRotationAngle.Ct sample_store mr' = Some (- 0)).
Proof.
  split; [reflexivity|]. split; [reflexivity|].
  destruct (C1_position_row_and_reproduction
              sample_store sample_motion (3 # 4)
              sample_linear_position (ChFunction_Ramp 1 2)
              sample_rotation_angle (ChFunction_Const (-3))
              eq_refl eq_refl)
    as [(ml' & HUl & _ & HCl & _) (mr' & HUr & _ & HCr & _)].
  split.
  - exists ml'. split; [exact HUl | exact HCl].
  - exists mr'. split; [exact HUr | exact HCr].
Defined.

(** A run of the definitions: at [t = 3/4], with the ramp [1 + 2 t], the
    offset [1/4] and the frames [5/2] apart, the row is satisfied. *)
Example LinearPosition_Update_sample :
  option_map ChLinkMotorLinearPosition.row_violation
    (ChLinkMotorLinearPosition.Update sample_store sample_motion (3 # 4)
       sample_linear_position)
  = Some ((5 # 2) - (1 + 2 * (3 # 4)) - (1 # 4)).
Proof. reflexivity. Qed.

Example LinearPosition_IntLoadConstraint_Ct_sample :
  ChLinkMotorLinearPosition.IntLoadConstraint_Ct sample_store 1 [0; 10; 0] 1
    sample_linear_position
  = Some [0; 10 + 1 * - (2); 0].
Proof. reflexivity. Qed.

(** A null function pointer makes the update fail. *)
Example LinearPosition_Update_null :
  ChLinkMotorLinearPosition.Update sample_store sample_motion 0
    (ChLinkMotorLinearPosition.SetMotionFunction None sample_linear_position)
  = None.
Proof. reflexivity. Qed.

(** ** Speed mode *)

Lemma LinearSpeed_Ct_Some (h : FunctionStore) (m : ChLinkMotorLinearSpeed.t)
    (f : ChFunction) :
  deref h (ChLinkMotorLinearSpeed.f_speed m) = Some f ->
  ChLinkMotorLinearSpeed.Ct h m = Some (- Get_y f (ChLinkMotorLinearSpeed.GetChTime m)).
Proof. intros H. unfold ChLinkMotorLinearSpeed.Ct. rewrite H. reflexivity. Qed.

Lemma RotationSpeed_Ct_Some (h : FunctionStore) (m : ChLinkMotorRotationSpeed.t)
    (f : ChFunction) :
  deref h (ChLinkMotorRotationSpeed.f_speed m) = Some f ->
  ChLinkMotorRotationSpeed.Ct h m = Some (- Get_y f (ChLinkMotorRotationSpeed.GetChTime m)).
Proof. intros H. unfold ChLinkMotorRotationSpeed.Ct. rewrite H. reflexivity. Qed.

(** The load of [Ct] is defined exactly on the offsets inside [Qc]. *)
Lemma LinearSpeed_IntLoadConstraint_Ct_total (h : FunctionStore)
    (m : ChLinkMotorLinearSpeed.t) (f : ChFunction) (off : nat) (Qc : list Q) (c : Q) :
  deref h (ChLinkMotorLinearSpeed.f_speed m) = Some f ->
  (off < length Qc)%nat ->
  is_Some (ChLinkMotorLinearSpeed.IntLoadConstraint_Ct h off Qc c m).
Proof.
  intros Hf Hoff. unfold ChLinkMotorLinearSpeed.IntLoadConstraint_Ct.
  rewrite (LinearSpeed_Ct_Some h m f Hf). simpl.
  destruct (lookup_lt_is_Some_2 Qc off Hoff) as [e He].
  rewrite (vec_add_Some off _ e Qc He). eauto.
Qed.

(** The motor row of a speed motor, on the model of the specification:
    its [Ct] term is [- v(t)], with [v] the speed function at the current
    time, and [IntLoadConstraint_Ct] adds [c] times that term at its
    offset of [Qc] and changes no other entry. *)
Lemma Speed_IntLoadConstraint_Ct_row
    (h : FunctionStore)
    (ml : ChLinkMotorLinearSpeed.t) (vl : ChFunction)
    (mr : ChLinkMotorRotationSpeed.t) (vr : ChFunction) :
  deref h (ChLinkMotorLinearSpeed.GetSpeedFunction ml) = Some vl ->
  deref h (ChLinkMotorRotationSpeed.GetSpeedFunction mr) = Some vr ->
  (ChLinkMotorLinearSpeed.Ct h ml
   = Some (- Get_y vl (ChLinkMotorLinearSpeed.GetChTime ml))
   /\ (forall (off : nat) (Qc : list Q) (c e : Q), Qc !! off = Some e ->
         ChLinkMotorLinearSpeed.IntLoadConstraint_Ct h off Qc c ml
         = Some (<[off := e + c * - Get_y vl (ChLinkMotorLinearSpeed.GetChTime ml)]> Qc))
   /\ (forall (off : nat) (Qc Qc' : list Q) (c : Q),
         ChLinkMotorLinearSpeed.IntLoadConstraint_Ct h off Qc c ml = Some Qc' ->
         length Qc' = length Qc /\ forall i : nat, i <> off -> Qc' !! i = Qc !! i))
  /\
  (ChLinkMotorRotationSpeed.Ct h mr
   = Some (- Get_y vr (ChLinkMotorRotationSpeed.GetChTime mr))
   /\ (forall (off : nat) (Qc : list Q) (c e : Q), Qc !! off = Some e ->
         ChLinkMotorRotationSpeed.IntLoadConstraint_Ct h off Qc c mr
         = Some (<[off := e + c * - Get_y vr (ChLinkMotorRotationSpeed.GetChTime mr)]> Qc))
   /\ (forall (off : nat) (Qc Qc' : list Q) (c : Q),
         ChLinkMotorRotationSpeed.IntLoadConstraint_Ct h off Qc c mr = Some Qc' ->
         length Qc' = length Qc /\ forall i : nat, i <> off -> Qc' !! i = Qc !! i)).
Proof.
  intros Hl Hr. split.
  - pose proof (LinearSpeed_Ct_Some h ml vl Hl) as HCt.
    split; [exact HCt|]. split.
    + intros off Qc c e He.
      unfold ChLinkMotorLinearSpeed.IntLoadConstraint_Ct.
      rewrite HCt. simpl. apply vec_add_Some, He.
    + intros off Qc Qc' c.
      unfold ChLinkMotorLinearSpeed.IntLoadConstraint_Ct.
      rewrite HCt. simpl. apply vec_add_one_row.
  - pose proof (RotationSpeed_Ct_Some h mr vr Hr) as HCt.
    split; [exact HCt|]. split.
    + intros off Qc c e He.
      unfold ChLinkMotorRotationSpeed.IntLoadConstraint_Ct.
      rewrite HCt. simpl. apply vec_add_Some, He.
    + intros off Qc Qc' c.
      unfold ChLinkMotorRotationSpeed.IntLoadConstraint_Ct.
      rewrite HCt. simpl. apply vec_add_one_row.
Qed.


Example RotationSpeed_IntLoadConstraint_Ct_sample :
  ChLinkMotorRotationSpeed.IntLoadConstraint_Ct sample_store 0 [1; 2] (1 # 2)
    (ChLinkMotorRotationSpeed.SetSpeedFunction (Some 1%nat) sample_rotation_speed)
  = Some [1 + (1 # 2) * - - (3); 2].
Proof. reflexivity. Qed.

Example RotationSpeed_IntLoadConstraint_Ct_out_of_range :
  ChLinkMotorRotationSpeed.IntLoadConstraint_Ct sample_store 2 [1; 2] 1
    (ChLinkMotorRotationSpeed.SetSpeedFunction (Some 1%nat) sample_rotation_speed)
  = None.
Proof. reflexivity. Qed.

(** ** Force and torque mode *)

(** The function object is shared: a change made to it through another
    holder of the pointer is what the motor reports next. *)
Lemma LinearForce_sees_shared_object (h : FunctionStore) (a : nat) (f' : ChFunction)
    (b : ChLinkMotorLinear.t) :
  ChLinkMotorLinearForce.GetActualForce (<[a := f']> h)
    (ChLinkMotorLinearForce.mk b (Some a))
  = Some (Get_y f' (GetChTime (ChLinkMotorLinear.link b))).
Proof.
  unfold ChLinkMotorLinearForce.GetActualForce; simpl.
  rewrite lookup_insert_eq. reflexivity.
Qed.

(** C3. Force / torque mode. A motor whose function pointer designates
    [f] reports exactly [f(t)], with [t] the current time of the link. The
    report does not depend on anything else the motor holds: with the same
    time and function, any stored reaction force [rf] and torque [rt], any
    residual [c], any lock-pattern and any cached relative position, speed
    and acceleration [p], [p1], [p2] of the two bodies give the same
    report. *)
Theorem C3_force_reaction_is_function_value
    (h : FunctionStore)
    (ml : ChLinkMotorLinearForce.t) (fl : ChFunction)
    (mr : ChLinkMotorRotationTorque.t) (fr : ChFunction) :
  deref h (ChLinkMotorLinearForce.GetForceFunction ml) = Some fl ->
  deref h (ChLinkMotorRotationTorque.GetTorqueFunction mr) = Some fr ->
  (ChLinkMotorLinearForce.GetActualForce h ml
   = Some (Get_y fl (ChLinkMotorLinearForce.GetChTime ml))
   /\ forall (rf rt : ChVector) (c p p1 p2 : Q) (g : ChLinkMotorLinear.Guide),
        ChLinkMotorLinearForce.GetActualForce h
          (ChLinkMotorLinearForce.mk
             (ChLinkMotorLinear.mk
                (mkLink (ChLinkMotorLinearForce.GetChTime ml) rf rt c) g p p1 p2)
             (ChLinkMotorLinearForce.GetForceFunction ml))
        = Some (Get_y fl (ChLinkMotorLinearForce.GetChTime ml)))
  /\
  (ChLinkMotorRotationTorque.GetActualTorque h mr
   = Some (Get_y fr (ChLinkMotorRotationTorque.GetChTime mr))
   /\ forall (rf rt : ChVector) (c p p1 p2 : Q) (s : ChLinkMotorRotation.Spindle),
        ChLinkMotorRotationTorque.GetActualTorque h
          (ChLinkMotorRotationTorque.mk
             (ChLinkMotorRotation.mk
                (mkLink (ChLinkMotorRotationTorque.GetChTime mr) rf rt c) s p p1 p2)
             (ChLinkMotorRotationTorque.GetTorqueFunction mr))
        = Some (Get_y fr (ChLinkMotorRotationTorque.GetChTime mr))).
Proof.
  intros Hl Hr. split; split.
  - unfold ChLinkMotorLinearForce.GetActualForce.
    unfold ChLinkMotorLinearForce.GetForceFunction in Hl. rewrite Hl. reflexivity.
  - intros rf rt c p p1 p2 g.
    unfold ChLinkMotorLinearForce.GetActualForce at 1; simpl.
    unfold ChLinkMotorLinearForce.GetForceFunction in *. rewrite Hl. reflexivity.
  - unfold ChLinkMotorRotationTorque.GetActualTorque.
    unfold ChLinkMotorRotationTorque.GetTorqueFunction in Hr. rewrite Hr. reflexivity.
  - intros rf rt c p p1 p2 s.
    unfold ChLinkMotorRotationTorque.GetActualTorque at 1; simpl.
    unfold ChLinkMotorRotationTorque.GetTorqueFunction in *. rewrite Hr. reflexivity.
Qed.

Lemma C3_force_reaction_is_function_value_witness :
  deref sample_store (ChLinkMotorLinearForce.GetForceFunction sample_linear_force)
  = Some (ChFunction_Ramp 1 2)
  /\ deref sample_store (ChLinkMotorRotationTorque.GetTorqueFunction sample_rotation_torque)
     = Some (ChFunction_Const (-3))
  /\ ChLinkMotorLinearForce.GetActualForce sample_store sample_linear_force
     = Some (1 + 2 * (1 # 2))
  /\ ChLinkMotorRotationTorque.GetActualTorque sample_store sample_rotation_torque
     = Some (-3).
Proof.
  split; [reflexivity|]. split; [reflexivity|].
  destruct (C3_force_reaction_is_function_value sample_store
              sample_linear_force (ChFunction_Ramp 1 2)
              sample_rotation_torque (ChFunction_Const (-3))
              eq_refl eq_refl)
    as [(Hl & _) (Hr & _)].
  split; [exact Hl | exact Hr].
Defined.

Example LinearForce_null_pointer :
  ChLinkMotorLinearForce.GetActualForce sample_store
    (ChLinkMotorLinearForce.SetForceFunction None sample_linear_force) = None.
Proof. reflexivity. Qed.

(** ** The auxiliary variable of the speed motors *)

(** [GetDOF] does not look at the motor. *)
Lemma LinearSpeed_GetDOF_constant (m m' : ChLinkMotorLinearSpeed.t) :
  ChLinkMotorLinearSpeed.GetDOF m = ChLinkMotorLinearSpeed.GetDOF m'.
Proof. reflexivity. Qed.

Lemma RotationSpeed_GetDOF_constant (m m' : ChLinkMotorRotationSpeed.t) :
  ChLinkMotorRotationSpeed.GetDOF m = ChLinkMotorRotationSpeed.GetDOF m'.
Proof. reflexivity. Qed.

(** No call changes the variable block of a speed motor. *)
Lemma linear_speed_step_variable (c : LinearSpeedCall) (m : ChLinkMotorLinearSpeed.t) :
  ChLinkMotorLinearSpeed.variable (linear_speed_step c m)
  = ChLinkMotorLinearSpeed.variable m.
Proof. destruct c; reflexivity. Qed.

Lemma linear_speed_run_variable (cs : list LinearSpeedCall) (m : ChLinkMotorLinearSpeed.t) :
  ChLinkMotorLinearSpeed.variable (linear_speed_run cs m)
  = ChLinkMotorLinearSpeed.variable m.
Proof.
  revert m. induction cs as [|c cs IH]; intros m; simpl.
  - reflexivity.
  - rewrite IH. apply linear_speed_step_variable.
Qed.

Lemma rotation_speed_step_variable (c : RotationSpeedCall) (m : ChLinkMotorRotationSpeed.t) :
  ChLinkMotorRotationSpeed.variable (rotation_speed_step c m)
  = ChLinkMotorRotationSpeed.variable m.
Proof. destruct c; reflexivity. Qed.

Lemma rotation_speed_run_variable (cs : list RotationSpeedCall) (m : ChLinkMotorRotationSpeed.t) :
  ChLinkMotorRotationSpeed.variable (rotation_speed_run cs m)
  = ChLinkMotorRotationSpeed.variable m.
Proof.
  revert m. induction cs as [|c cs IH]; intros m; simpl.
  - reflexivity.
  - rewrite IH. apply rotation_speed_step_variable.
Qed.

(** The constructed motor holds the documented defaults. *)
Lemma LinearSpeed_construct_defaults (b : ChLinkMotorLinear.t) (a0 a1 : Q)
    (h : FunctionStore) :
  let m := (ChLinkMotorLinearSpeed.construct b a0 a1 h).2 in
  deref (ChLinkMotorLinearSpeed.construct b a0 a1 h).1
        (ChLinkMotorLinearSpeed.GetSpeedFunction m) = Some (ChFunction_Const 1)
  /\ ChLinkMotorLinearSpeed.GetMotionOffset m = 0
  /\ ChLinkMotorLinearSpeed.variable m = mkVariables 1 1
  /\ ChLinkMotorLinearSpeed.base m = b.
Proof.
  simpl. repeat split. apply (deref_make_shared (ChFunction_Const 1) h).
Qed.

Lemma RotationSpeed_construct_defaults (b : ChLinkMotorRotation.t) (a0 a1 : Q)
    (h : FunctionStore) :
  let m := (ChLinkMotorRotationSpeed.construct b a0 a1 h).2 in
  deref (ChLinkMotorRotationSpeed.construct b a0 a1 h).1
        (ChLinkMotorRotationSpeed.GetSpeedFunction m) = Some (ChFunction_Const 1)
  /\ ChLinkMotorRotationSpeed.GetAngleOffset m = 0
  /\ ChLinkMotorRotationSpeed.variable m = mkVariables 1 1
  /\ ChLinkMotorRotationSpeed.base m = b.
Proof.
  simpl. repeat split. apply (deref_make_shared (ChFunction_Const 1) h).
Qed.

(** C4, as the specification states it, fails: with drift avoidance
    disabled the motor does not hold two state slots fewer than with
    drift avoidance enabled. *)
Lemma C4_drift_toggle_counterexample :
  ~ (ChLinkMotorLinearSpeed.state_slots
       (ChLinkMotorLinearSpeed.SetAvoidPositionDrift false sample_linear_speed)
     = ChLinkMotorLinearSpeed.state_slots
         (ChLinkMotorLinearSpeed.SetAvoidPositionDrift true sample_linear_speed) - 2)%Z
  /\
  ~ (ChLinkMotorRotationSpeed.state_slots
       (ChLinkMotorRotationSpeed.SetAvoidAngleDrift false sample_rotation_speed)
     = ChLinkMotorRotationSpeed.state_slots
         (ChLinkMotorRotationSpeed.SetAvoidAngleDrift true sample_rotation_speed) - 2)%Z.
Proof. split; intros H; vm_compute in H; discriminate H. Qed.

(** C4, amended. [SetAvoidPositionDrift(b)] / [SetAvoidAngleDrift(b)]
    leaves the auxiliary variable in the state: [GetDOF()] is 1 for
    either value of the flag, the motor holds one coordinate and one
    speed slot with drift avoidance disabled as with it enabled, and the
    variable block it registers is the same. *)
Theorem C4_drift_toggle_keeps_state_size
    (ml : ChLinkMotorLinearSpeed.t) (mr : ChLinkMotorRotationSpeed.t)
    (b : bool) (d : ChSystemDescriptor) :
  (ChLinkMotorLinearSpeed.GetDOF (ChLinkMotorLinearSpeed.SetAvoidPositionDrift b ml) = 1%Z
   /\ ChLinkMotorLinearSpeed.GetDOF_w (ChLinkMotorLinearSpeed.SetAvoidPositionDrift b ml) = 1%Z
   /\ ChLinkMotorLinearSpeed.state_slots (ChLinkMotorLinearSpeed.SetAvoidPositionDrift false ml)
      = ChLinkMotorLinearSpeed.state_slots (ChLinkMotorLinearSpeed.SetAvoidPositionDrift true ml)
   /\ ChLinkMotorLinearSpeed.InjectVariables d (ChLinkMotorLinearSpeed.SetAvoidPositionDrift b ml)
      = ChLinkMotorLinearSpeed.InjectVariables d ml)
  /\
  (ChLinkMotorRotationSpeed.GetDOF (ChLinkMotorRotationSpeed.SetAvoidAngleDrift b mr) = 1%Z
   /\ ChLinkMotorRotationSpeed.GetDOF_w (ChLinkMotorRotationSpeed.SetAvoidAngleDrift b mr) = 1%Z
   /\ ChLinkMotorRotationSpeed.state_slots (ChLinkMotorRotationSpeed.SetAvoidAngleDrift false mr)
      = ChLinkMotorRotationSpeed.state_slots (ChLinkMotorRotationSpeed.SetAvoidAngleDrift true mr)
   /\ ChLinkMotorRotationSpeed.InjectVariables d (ChLinkMotorRotationSpeed.SetAvoidAngleDrift b mr)
      = ChLinkMotorRotationSpeed.InjectVariables d mr).
Proof. repeat split. Qed.

(** C5. A speed motor owns one auxiliary scalar degree of freedom from
    its construction on: after any sequence of calls on a constructed
    motor, [GetDOF()] is 1, the variable block is the one made by the
    constructor, with one unknown and mass 1, and [InjectVariables]
    registers exactly that one block more with the solver. *)
Theorem C5_speed_motor_owns_one_auxiliary_dof
    (bl : ChLinkMotorLinear.t) (br : ChLinkMotorRotation.t) (a0 a1 : Q)
    (h : FunctionStore)
    (csl : list LinearSpeedCall) (csr : list RotationSpeedCall)
    (d : ChSystemDescriptor) :
  let ml := linear_speed_run csl (ChLinkMotorLinearSpeed.construct bl a0 a1 h).2 in
  let mr := rotation_speed_run csr (ChLinkMotorRotationSpeed.construct br a0 a1 h).2 in
  (ChLinkMotorLinearSpeed.GetDOF ml = 1%Z
   /\ Get_ndof (ChLinkMotorLinearSpeed.variable ml) = 1%Z
   /\ GetMass (ChLinkMotorLinearSpeed.variable ml) = 1
   /\ vvariables (ChLinkMotorLinearSpeed.InjectVariables d ml)
      = vvariables d ++ [ChLinkMotorLinearSpeed.variable ml]
   /\ length (vvariables (ChLinkMotorLinearSpeed.InjectVariables d ml))
      = S (length (vvariables d)))
  /\
  (ChLinkMotorRotationSpeed.GetDOF mr = 1%Z
   /\ Get_ndof (ChLinkMotorRotationSpeed.variable mr) = 1%Z
   /\ GetMass (ChLinkMotorRotationSpeed.variable mr) = 1
   /\ vvariables (ChLinkMotorRotationSpeed.InjectVariables d mr)
      = vvariables d ++ [ChLinkMotorRotationSpeed.variable mr]
   /\ length (vvariables (ChLinkMotorRotationSpeed.InjectVariables d mr))
      = S (length (vvariables d))).
Proof.
  intros ml mr. split.
  - assert (Hv : ChLinkMotorLinearSpeed.variable ml = mkVariables 1 1).
    { unfold ml. rewrite linear_speed_run_variable. reflexivity. }
    split; [reflexivity|]. rewrite Hv. split; [reflexivity|]. split; [reflexivity|].
    unfold ChLinkMotorLinearSpeed.InjectVariables, InsertVariables; simpl.
    rewrite Hv. split; [reflexivity|].
    rewrite length_app. simpl. lia.
  - assert (Hv : ChLinkMotorRotationSpeed.variable mr = mkVariables 1 1).
    { unfold mr. rewrite rotation_speed_run_variable. reflexivity. }
    split; [reflexivity|]. rewrite Hv. split; [reflexivity|]. split; [reflexivity|].
    unfold ChLinkMotorRotationSpeed.InjectVariables, InsertVariables; simpl.
    rewrite Hv. split; [reflexivity|].
    rewrite length_app. simpl. lia.
Qed.

(** C8. A newly constructed speed motor has drift avoidance enabled. *)
Theorem C8_drift_avoidance_enabled_by_default
    (bl : ChLinkMotorLinear.t) (br : ChLinkMotorRotation.t) (a0 a1 : Q)
    (h : FunctionStore) :
  ChLinkMotorLinearSpeed.GetAvoidPositionDrift
    (ChLinkMotorLinearSpeed.construct bl a0 a1 h).2 = true
  /\ ChLinkMotorRotationSpeed.GetAvoidAngleDrift
       (ChLinkMotorRotationSpeed.construct br a0 a1 h).2 = true.
Proof. split; reflexivity. Qed.

(** ** Setters and getters *)

(** C9. Each setter is read back by its getter: the function pointer
    that was set is the pointer that is returned (the same object of the
    store, null included), and the offset that was set is the offset that
    is returned. *)
Theorem C9_setters_are_read_back_by_getters
    (mf : ChFunctionPtr) (mo : Q)
    (lp : ChLinkMotorLinearPosition.t) (ls : ChLinkMotorLinearSpeed.t)
    (lf : ChLinkMotorLinearForce.t)
    (ra : ChLinkMotorRotationAngle.t) (rs : ChLinkMotorRotationSpeed.t)
    (rt : ChLinkMotorRotationTorque.t) :
  ChLinkMotorLinearPosition.GetMotionFunction
    (ChLinkMotorLinearPosition.SetMotionFunction mf lp) = mf
  /\ ChLinkMotorLinearSpeed.GetSpeedFunction
       (ChLinkMotorLinearSpeed.SetSpeedFunction mf ls) = mf
  /\ ChLinkMotorLinearForce.GetForceFunction
       (ChLinkMotorLinearForce.SetForceFunction mf lf) = mf
  /\ ChLinkMotorRotationAngle.GetAngleFunction
       (ChLinkMotorRotationAngle.SetAngleFunction mf ra) = mf
  /\ ChLinkMotorRotationSpeed.GetSpeedFunction
       (ChLinkMotorRotationSpeed.SetSpeedFunction mf rs) = mf
  /\ ChLinkMotorRotationTorque.GetTorqueFunction
       (ChLinkMotorRotationTorque.SetTorqueFunction mf rt) = mf
  /\ ChLinkMotorLinearPosition.GetMotionOffset
       (ChLinkMotorLinearPosition.SetMotionOffset mo lp) = mo
  /\ ChLinkMotorLinearSpeed.GetMotionOffset
       (ChLinkMotorLinearSpeed.SetMotionOffset mo ls) = mo
  /\ ChLinkMotorRotationAngle.GetMotionOffset
       (ChLinkMotorRotationAngle.SetMotionOffset mo ra) = mo
  /\ ChLinkMotorRotationSpeed.GetAngleOffset
       (ChLinkMotorRotationSpeed.SetAngleOffset mo rs) = mo.
Proof. repeat split. Qed.

(** The getter returns the very object: what the setter's caller reads
    behind its pointer is what the motor's client reads behind the
    returned one, in every store. *)
Lemma LinearSpeed_getter_same_object (h : FunctionStore) (mf : ChFunctionPtr)
    (m : ChLinkMotorLinearSpeed.t) :
  deref h (ChLinkMotorLinearSpeed.GetSpeedFunction
             (ChLinkMotorLinearSpeed.SetSpeedFunction mf m))
  = deref h mf.
Proof. reflexivity. Qed.

(** A function setter and an offset setter do not disturb each other. *)
Lemma LinearPosition_setters_commute (mf : ChFunctionPtr) (mo : Q)
    (m : ChLinkMotorLinearPosition.t) :
  ChLinkMotorLinearPosition.SetMotionOffset mo
    (ChLinkMotorLinearPosition.SetMotionFunction mf m)
  = ChLinkMotorLinearPosition.SetMotionFunction mf
      (ChLinkMotorLinearPosition.SetMotionOffset mo m).
Proof. reflexivity. Qed.

(** C10. [SetAvoidPositionDrift(b)] / [SetAvoidAngleDrift(b)] changes
    the flag and nothing else: the speed function, the offset, the
    variable block, the two integration states and the base-class part
    are what they were, and the getter then returns [b]. *)
Theorem C10_drift_setter_changes_only_the_flag
    (b : bool) (ml : ChLinkMotorLinearSpeed.t) (mr : ChLinkMotorRotationSpeed.t) :
  (ChLinkMotorLinearSpeed.GetAvoidPositionDrift
     (ChLinkMotorLinearSpeed.SetAvoidPositionDrift b ml) = b
   /\ ChLinkMotorLinearSpeed.SetAvoidPositionDrift b ml
      = ChLinkMotorLinearSpeed.mk
          (ChLinkMotorLinearSpeed.base ml) (ChLinkMotorLinearSpeed.f_speed ml)
          (ChLinkMotorLinearSpeed.pos_offset ml) (ChLinkMotorLinearSpeed.variable ml)
          (ChLinkMotorLinearSpeed.aux_dt ml) (ChLinkMotorLinearSpeed.aux_dtdt ml) b
   /\ ChLinkMotorLinearSpeed.GetSpeedFunction
        (ChLinkMotorLinearSpeed.SetAvoidPositionDrift b ml)
      = ChLinkMotorLinearSpeed.GetSpeedFunction ml
   /\ ChLinkMotorLinearSpeed.GetMotionOffset
        (ChLinkMotorLinearSpeed.SetAvoidPositionDrift b ml)
      = ChLinkMotorLinearSpeed.GetMotionOffset ml
   /\ ChLinkMotorLinearSpeed.variable (ChLinkMotorLinearSpeed.SetAvoidPositionDrift b ml)
      = ChLinkMotorLinearSpeed.variable ml
   /\ ChLinkMotorLinearSpeed.aux_dt (ChLinkMotorLinearSpeed.SetAvoidPositionDrift b ml)
      = ChLinkMotorLinearSpeed.aux_dt ml
   /\ ChLinkMotorLinearSpeed.aux_dtdt (ChLinkMotorLinearSpeed.SetAvoidPositionDrift b ml)
      = ChLinkMotorLinearSpeed.aux_dtdt ml
   /\ ChLinkMotorLinearSpeed.base (ChLinkMotorLinearSpeed.SetAvoidPositionDrift b ml)
      = ChLinkMotorLinearSpeed.base ml)
  /\
  (ChLinkMotorRotationSpeed.GetAvoidAngleDrift
     (ChLinkMotorRotationSpeed.SetAvoidAngleDrift b mr) = b
   /\ ChLinkMotorRotationSpeed.SetAvoidAngleDrift b mr
      = ChLinkMotorRotationSpeed.mk
          (ChLinkMotorRotationSpeed.base mr) (ChLinkMotorRotationSpeed.f_speed mr)
          (ChLinkMotorRotationSpeed.rot_offset mr) (ChLinkMotorRotationSpeed.variable mr)
          (ChLinkMotorRotationSpeed.aux_dt mr) (ChLinkMotorRotationSpeed.aux_dtdt mr) b
   /\ ChLinkMotorRotationSpeed.GetSpeedFunction
        (ChLinkMotorRotationSpeed.SetAvoidAngleDrift b mr)
      = ChLinkMotorRotationSpeed.GetSpeedFunction mr
   /\ ChLinkMotorRotationSpeed.GetAngleOffset
        (ChLinkMotorRotationSpeed.SetAvoidAngleDrift b mr)
      = ChLinkMotorRotationSpeed.GetAngleOffset mr
   /\ ChLinkMotorRotationSpeed.variable (ChLinkMotorRotationSpeed.SetAvoidAngleDrift b mr)
      = ChLinkMotorRotationSpeed.variable mr
   /\ ChLinkMotorRotationSpeed.aux_dt (ChLinkMotorRotationSpeed.SetAvoidAngleDrift b mr)
      = ChLinkMotorRotationSpeed.aux_dt mr
   /\ ChLinkMotorRotationSpeed.aux_dtdt (ChLinkMotorRotationSpeed.SetAvoidAngleDrift b mr)
      = ChLinkMotorRotationSpeed.aux_dtdt mr
   /\ ChLinkMotorRotationSpeed.base (ChLinkMotorRotationSpeed.SetAvoidAngleDrift b mr)
      = ChLinkMotorRotationSpeed.base mr).
Proof. repeat split. Qed.

(** Setting the flag it already has leaves a motor as it is. *)
Lemma LinearSpeed_SetAvoidPositionDrift_same (m : ChLinkMotorLinearSpeed.t) :
  ChLinkMotorLinearSpeed.SetAvoidPositionDrift
    (ChLinkMotorLinearSpeed.GetAvoidPositionDrift m) m = m.
Proof. destruct m; reflexivity. Qed.

(** ** Lock-patterns *)

Lemma guide_rows_le_5 (m : ChLinkMotorLinear.t) :
  (ChLinkMotorLinear.guide_rows m <= 5)%nat.
Proof.
  destruct m as [l [[] [] [] [] [] []] p p1 p2]; vm_compute; lia.
Qed.

Lemma spindle_rows_le_5 (m : ChLinkMotorRotation.t) :
  (ChLinkMotorRotation.spindle_rows m <= 5)%nat.
Proof.
  destruct m as [l [[] [] [] [] [] []] p p1 p2]; vm_compute; lia.
Qed.

(** The rows after a named setting depend on the variant alone. *)
Lemma SetGuideConstraint_rows
    (named : ChLinkMotorLinear.GuideConstraint -> ChLinkMotorLinear.GuideFlags)
    (g : ChLinkMotorLinear.GuideConstraint) (m m' : ChLinkMotorLinear.t) :
  ChLinkMotorLinear.guide_rows (ChLinkMotorLinear.SetGuideConstraint named g m)
  = ChLinkMotorLinear.guide_rows (ChLinkMotorLinear.SetGuideConstraint named g m').
Proof.
  unfold ChLinkMotorLinear.guide_rows, ChLinkMotorLinear.SetGuideConstraint,
         ChLinkMotorLinear.SetGuideConstraint_flags; simpl.
  destruct (ChLinkMotorLinear.c_x (ChLinkMotorLinear.guide m)),
           (ChLinkMotorLinear.c_x (ChLinkMotorLinear.guide m')),
           (named g) as [[] [] [] [] []]; reflexivity.
Qed.



(** The setters of the guide leave the flag of the actuated axis as it
    is, whatever flags the named variants stand for. *)
Lemma guide_run_actuated
    (named : ChLinkMotorLinear.GuideConstraint -> ChLinkMotorLinear.GuideFlags)
    (cs : list GuideCall) (m : ChLinkMotorLinear.t) :
  ChLinkMotorLinear.locked (ChLinkMotorLinear.guide (guide_run named cs m))
    ChLinkMotorLinear.actuated
  = ChLinkMotorLinear.locked (ChLinkMotorLinear.guide m) ChLinkMotorLinear.actuated.
Proof.
  revert m. induction cs as [|c cs IH]; intros m.
  - reflexivity.
  - cbn [guide_run spindle_run]. rewrite IH. destruct c; reflexivity.
Qed.

Lemma spindle_run_actuated
    (named : ChLinkMotorRotation.SpindleConstraint -> ChLinkMotorRotation.SpindleFlags)
    (cs : list SpindleCall) (m : ChLinkMotorRotation.t) :
  ChLinkMotorRotation.locked (ChLinkMotorRotation.spindle (spindle_run named cs m))
    ChLinkMotorRotation.actuated
  = ChLinkMotorRotation.locked (ChLinkMotorRotation.spindle m)
      ChLinkMotorRotation.actuated.
Proof.
  revert m. induction cs as [|c cs IH]; intros m.
  - reflexivity.
  - cbn [guide_run spindle_run]. rewrite IH. destruct c; reflexivity.
Qed.


(** A setter that wrote the flag of x would not keep it: the flag of a
    motor whose x is free stays down through a prismatic setting. *)
Example guide_run_sample :
  let m := guide_run ChLinkMotorLinear.named_guide
             [GuideByName ChLinkMotorLinear.PRISMATIC;
              GuideByFlags false true false false true]
             (ChLinkMotorLinear.mk sample_link
                (ChLinkMotorLinear.mkGuide false false false false false false) 0 0 0) in
  ChLinkMotorLinear.guide_rows m = 2%nat
  /\ ChLinkMotorLinear.locked (ChLinkMotorLinear.guide m) dof_x = false.
Proof. split; reflexivity. Qed.

(** ** Contact material of a part ([ChPart]) *)

(** X4. After any sequence of calls of the two setters of the contact
    material, the name, the friction and the restitution of the part are
    what they were; the Young modulus and the Poisson ratio are those of
    the last [SetContactMaterialProperties], the four coefficients those
    of the last [SetContactMaterialCoefficients], each argument in the
    member of its name; without such a call they are unchanged. *)
Theorem ChPart_material_calls (cs : list ChPart.MaterialCall) (p : ChPart.t) :
  let p' := ChPart.material_run cs p in
  ChPart.m_name p' = ChPart.m_name p
  /\ ChPart.m_friction p' = ChPart.m_friction p
  /\ ChPart.m_restitution p' = ChPart.m_restitution p
  /\ (ChPart.m_young_modulus p', ChPart.m_poisson_ratio p')
     = default (ChPart.m_young_modulus p, ChPart.m_poisson_ratio p)
               (ChPart.last_Properties cs)
  /\ (ChPart.m_kn p', ChPart.m_gn p', ChPart.m_kt p', ChPart.m_gt p')
     = default (ChPart.m_kn p, ChPart.m_gn p, ChPart.m_kt p, ChPart.m_gt p)
               (ChPart.last_Coefficients cs).
Proof.
  revert p. induction cs as [|c cs IH]; intros p; simpl.
  - repeat split.
  - destruct (IH (ChPart.material_step c p)) as (Hn & Hf & Hr & Hp & Hc).
    rewrite Hn, Hf, Hr, Hp, Hc. clear IH Hn Hf Hr Hp Hc.
    destruct c; simpl;
      destruct (ChPart.last_Properties cs), (ChPart.last_Coefficients cs);
      repeat split.
Qed.

Example ChPart_material_calls_sample :
  let p := ChPart.material_run
             [ChPart.Coefficients 1 2 3 4; ChPart.Properties 5 6;
              ChPart.Coefficients 7 8 9 10]
             (ChPart.construct "chassis") in
  (ChPart.m_kn p, ChPart.m_gn p, ChPart.m_kt p, ChPart.m_gt p) = (7, 8, 9, 10)
  /\ (ChPart.m_young_modulus p, ChPart.m_poisson_ratio p) = (5, 6)
  /\ ChPart.m_friction p == 0.699999988079071044921875.
Proof. repeat split. Qed.

(** ** The event receiver of the extrusion demo *)

(** Unfolds the chain of [if (id == ...)] of a handler and splits it
    into its cases: one per identifier, and one for no identifier. *)
Ltac split_on_id :=
  unfold MyEventReceiver.when_id,
    MyEventReceiver.GUI_ID_SCROLLBAR_WireElementLength,
    MyEventReceiver.GUI_ID_SCROLLBAR_WireDiameter,
    MyEventReceiver.GUI_ID_SCROLLBAR_WireYoungModulus,
    MyEventReceiver.GUI_ID_SCROLLBAR_WireShearModulus,
    MyEventReceiver.GUI_ID_SCROLLBAR_WireRayleighDamping,
    MyEventReceiver.GUI_ID_SPINBOX_BrakeGearLobeNumber,
    MyEventReceiver.GUI_ID_SCROLLBAR_BrakeGearLobeWidth,
    MyEventReceiver.GUI_ID_SCROLLBAR_BrakeGearLobeThickness,
    MyEventReceiver.GUI_ID_SCROLLBAR_BrakeGearLobePrimitiveRadius,
    MyEventReceiver.GUI_ID_SCROLLBAR_BrakeGearLobeInnerRadius,
    MyEventReceiver.GUI_ID_SCROLLBAR_BrakeGearLobeOuterRadius,
    MyEventReceiver.GUI_ID_SCROLLBAR_ExtruderSpeed,
    MyEventReceiver.GUI_ID_SCROLLBAR_BrakeGearSpeed,
    MyEventReceiver.GUI_ID_SCROLLBAR_ExtrusionBrakeSpeedRatio,
    MyEventReceiver.GUI_ID_BUTTON_ConfigurationCompleted,
    MyEventReceiver.GUI_ID_BUTTON_StartSimulation,
    MyEventReceiver.GUI_ID_BUTTON_PauseSimulation,
    MyEventReceiver.GUI_ID_BUTTON_StopSimulation in *;
  repeat match goal with
    | |- context [(MyEventReceiver.Caller_getID ?e =? ?k)%Z] =>
        let E := fresh "Hid" in
        destruct (Z.eqb_spec (MyEventReceiver.Caller_getID e) k) as [E|E];
        [rewrite E in *; simpl | simpl]
    end.

(** The brake gear speed slider keeps the invariant and never fails
    under it; it leaves the flags, the wire and the extruder alone. *)
Lemma brake_gear_speed_changed_invariant (pos : Z) (s : MyEventReceiver.t) :
  Receiver_invariant s ->
  exists s', MyEventReceiver.brake_gear_speed_changed pos s = Some s'
    /\ Receiver_invariant s'
    /\ MyEventReceiver.isConfigurationCompleted s' = MyEventReceiver.isConfigurationCompleted s
    /\ MyEventReceiver.isSimulationStarted s' = MyEventReceiver.isSimulationStarted s
    /\ MyEventReceiver.isSimulationPaused s' = MyEventReceiver.isSimulationPaused s
    /\ MyEventReceiver.mwire s' = MyEventReceiver.mwire s
    /\ MyEventReceiver.mWireExtruder s' = MyEventReceiver.mWireExtruder s.
Proof.
  intros [Hflags Hlinks]. unfold MyEventReceiver.brake_gear_speed_changed.
  destruct (MyEventReceiver.isConfigurationCompleted s) eqn:Hc.
  - destruct Hlinks as (low & high & v & Hl & Hh & _ & _).
    rewrite Hl, Hh. simpl. eexists. split; [reflexivity|]. split.
    + split; [exact Hflags|]. simpl. rewrite Hc.
      set (h := MyEventReceiver.functions s).
      set (w := MyEventReceiver.slider_value 0.1 pos).
      exists (ChLinkMotorRotationSpeed.SetSpeedFunction (Some (fresh (dom h))) low).
      eexists. exists w.
      split; [reflexivity|]. split; [reflexivity|]. split.
      * apply (make_shared_keeps (ChFunction_Const w) (ChFunction_Const (- w))
                 (<[fresh (dom h) := ChFunction_Const (- w)]> h) (fresh (dom h))).
        apply lookup_insert_eq.
      * apply (deref_make_shared (ChFunction_Const w)
                 (<[fresh (dom h) := ChFunction_Const (- w)]> h)).
    + simpl. rewrite Hc. repeat split.
  - exists s. split; [reflexivity|]. split.
    + split; [exact Hflags|]. rewrite Hc. exact Hlinks.
    + rewrite Hc. repeat split.
Qed.

Lemma scroll_bar_changed_invariant (event : MyEventReceiver.SEvent)
    (s : MyEventReceiver.t) :
  Receiver_invariant s ->
  exists s', MyEventReceiver.scroll_bar_changed event s = Some s'
    /\ Receiver_invariant s'
    /\ MyEventReceiver.isConfigurationCompleted s' = MyEventReceiver.isConfigurationCompleted s
    /\ MyEventReceiver.isSimulationStarted s' = MyEventReceiver.isSimulationStarted s
    /\ MyEventReceiver.isSimulationPaused s' = MyEventReceiver.isSimulationPaused s.
Proof.
  intros H. unfold MyEventReceiver.scroll_bar_changed. split_on_id;
    try (eexists; split; [reflexivity|]; split; [exact H | repeat split]).
  destruct (brake_gear_speed_changed_invariant (MyEventReceiver.Caller_getPos event) s H)
    as (s' & E & HI & Hc & Hs & Hp & _).
  rewrite E. simpl. exists s'.
  split; [reflexivity|]. split; [exact HI|]. repeat split; assumption.
Qed.

Lemma slider_value_positive (base : Q) (pos : Z) :
  0 < base -> (0 < pos)%Z -> 0 < MyEventReceiver.slider_value base pos.
Proof.
  intros Hb Hp.
  assert (E : MyEventReceiver.slider_value base pos == base * inject_Z pos / 50).
  { unfold MyEventReceiver.slider_value.
    unfold Z.sub. rewrite inject_Z_plus, inject_Z_opp.
    change (inject_Z 50) with 50.
    setoid_replace 50.0 with 50 using relation Qeq by reflexivity. field. }
  rewrite E.
  assert (Hq : 0 < inject_Z pos).
  { replace 0 with (inject_Z 0) by reflexivity. rewrite <- Zlt_Qlt. exact Hp. }
  apply Qlt_shift_div_l; [reflexivity|].
  rewrite Qmult_0_l. apply Qmult_lt_0_compat; assumption.
Qed.

(** X5. For each base that the receiver uses, a slider stands for the
    base value at position 50 and for zero at position 0 and at no other
    position; its value is positive for a positive position and never
    decreases when the position goes up. *)
Theorem slider_value_sign (base : Q) (pos pos' : Z) :
  In base slider_bases ->
  MyEventReceiver.slider_value base 50 == base
  /\ (MyEventReceiver.slider_value base pos == 0 <-> pos = 0%Z)
  /\ ((0 < pos)%Z -> 0 < MyEventReceiver.slider_value base pos)
  /\ ((pos <= pos')%Z ->
      MyEventReceiver.slider_value base pos <= MyEventReceiver.slider_value base pos').
Proof.
  intros Hin.
  assert (Hb : 0 < base).
  { unfold slider_bases in Hin. simpl in Hin.
    destruct Hin as [<-|[<-|[<-|[<-|[<-|[]]]]]]; vm_compute; reflexivity. }
  assert (E : forall p, MyEventReceiver.slider_value base p == base * inject_Z p / 50).
  { intros p. unfold MyEventReceiver.slider_value.
    unfold Z.sub. rewrite inject_Z_plus, inject_Z_opp.
    change (inject_Z 50) with 50.
    setoid_replace 50.0 with 50 using relation Qeq by reflexivity. field. }
  split; [|split; [|split]].
  - rewrite E. change (inject_Z 50) with 50. field.
  - rewrite E. split.
    + intros H. apply (inject_Z_injective pos 0). change (inject_Z 0) with 0.
      assert (G : base * inject_Z pos == 0).
      { setoid_replace (base * inject_Z pos) with (base * inject_Z pos / 50 * 50)
          using relation Qeq by field.
        rewrite H. ring. }
      apply Qmult_integral in G. destruct G as [G|G]; [|exact G].
      rewrite G in Hb. discriminate Hb.
    + intros ->. change (inject_Z 0) with 0. field.
  - apply slider_value_positive. exact Hb.
  - intros Hp. rewrite !E. rewrite Zle_Qle in Hp.
    apply Qmult_le_compat_r; [|discriminate].
    rewrite !(Qmult_comm base). apply Qmult_le_compat_r; [exact Hp|].
    apply Qlt_le_weak. exact Hb.
Qed.

Lemma slider_value_sign_witness :
  In 0.1 slider_bases
  /\ (MyEventReceiver.slider_value 0.1 0 == 0 <-> 0%Z = 0%Z)
  /\ MyEventReceiver.slider_value 0.1 100 <= MyEventReceiver.slider_value 0.1 150.
Proof.
  assert (H : In 0.1 slider_bases).
  { unfold slider_bases. simpl. right. right. right. right. left. reflexivity. }
  split; [exact H|].
  destruct (slider_value_sign 0.1 100 150 H) as (_ & _ & _ & Hmono).
  destruct (slider_value_sign 0.1 0 0 H) as (_ & Hzero & _).
  split; [exact Hzero|]. apply Hmono. discriminate.
Defined.

(** The 'configuration done' button never fails: the function it reads
    back is the one it has just set. *)
Lemma configuration_completed_invariant (event : MyEventReceiver.SEvent)
    (s : MyEventReceiver.t) :
  exists s', MyEventReceiver.configuration_completed event s = Some s'
    /\ Receiver_invariant s'
    /\ MyEventReceiver.isConfigurationCompleted s' = true
    /\ MyEventReceiver.isSimulationStarted s' = false
    /\ MyEventReceiver.isSimulationPaused s' = true
    /\ MyEventReceiver.mwire s' = MyEventReceiver.mwire s
    /\ MyEventReceiver.mWireExtruder s' = MyEventReceiver.mWireExtruder s.
Proof.
  unfold MyEventReceiver.configuration_completed.
  set (h := MyEventReceiver.functions s).
  set (w := MyEventReceiver.slider_value 0.1
              (MyEventReceiver.scrollbar_BrakeGearSpeed_getPos event)).
  simpl.
  pose proof (deref_make_shared (ChFunction_Const w)
                (<[fresh (dom h) := ChFunction_Const (- w)]> h)) as Hhigh.
  simpl in Hhigh. unfold deref in Hhigh. simpl in Hhigh. rewrite Hhigh. simpl.
  eexists. split; [reflexivity|]. split; [|repeat split].
  split; [reflexivity|]. simpl.
  eexists. eexists. exists w.
  split; [reflexivity|]. split; [reflexivity|]. split.
  - apply (make_shared_keeps (ChFunction_Const w) (ChFunction_Const (- w))
             (<[fresh (dom h) := ChFunction_Const (- w)]> h) (fresh (dom h))).
    apply lookup_insert_eq.
  - exact Hhigh.
Qed.

(** One event: the handler is defined, keeps the invariant, never lowers
    the configuration flag and never touches the wire outside the five
    sliders of the wire. *)
Lemma OnEvent_invariant (event : MyEventReceiver.SEvent) (s : MyEventReceiver.t) :
  Receiver_invariant s ->
  exists (s' : MyEventReceiver.t) (b : bool),
    MyEventReceiver.OnEvent event s = Some (s', b)
    /\ Receiver_invariant s'
    /\ (MyEventReceiver.isConfigurationCompleted s = true ->
        MyEventReceiver.isConfigurationCompleted s' = true).
Proof.
  intros H. unfold MyEventReceiver.OnEvent.
  destruct (MyEventReceiver.EventType event);
    [destruct (MyEventReceiver.GUIEvent_EventType event)|];
    try (exists s, false; split; [reflexivity|]; split; [exact H|tauto]).
  - destruct (scroll_bar_changed_invariant event s H) as (s' & E & HI & Hc & _).
    rewrite E. simpl. exists s', false. split; [reflexivity|].
    split; [exact HI|]. rewrite Hc. tauto.
  - unfold MyEventReceiver.button_clicked.
    destruct (configuration_completed_invariant event s) as (s' & E & HI & Hc & _).
    rewrite E. destruct H as [Hf Hl].
    split_on_id;
      (eexists; eexists; split; [reflexivity|]; split;
       [ first [exact HI | split; [first [exact Hf | reflexivity] | exact Hl]]
       | first [intros _; exact Hc | simpl; tauto] ]).
Qed.

Lemma run_invariant (events : list MyEventReceiver.SEvent) (s : MyEventReceiver.t) :
  Receiver_invariant s ->
  exists s', MyEventReceiver.run events s = Some s'
    /\ Receiver_invariant s'
    /\ (MyEventReceiver.isConfigurationCompleted s = true ->
        MyEventReceiver.isConfigurationCompleted s' = true).
Proof.
  revert s. induction events as [|event events IH]; intros s H; simpl.
  - exists s. split; [reflexivity|]. split; [exact H|tauto].
  - destruct (OnEvent_invariant event s H) as (s1 & b & E & H1 & Hc1).
    rewrite E. simpl.
    destruct (IH s1 H1) as (s' & E' & H' & Hc').
    exists s'. split; [exact E'|]. split; [exact H'|]. tauto.
Qed.

Lemma initial_invariant (h : gmap nat ChFunction) :
  Receiver_invariant (MyEventReceiver.initial h).
Proof. split; [reflexivity|]. simpl. split; reflexivity. Qed.

(** X6. From the receiver that [main] builds, with null brake gear
    links, no sequence of events makes [OnEvent] call through a null
    link: every sequence runs to a state, and in it the two links are
    non-null when the configuration flag is raised and null when it is
    not. *)
Theorem OnEvent_never_calls_through_null_link
    (h : gmap nat ChFunction) (events : list MyEventReceiver.SEvent) :
  exists s, MyEventReceiver.run events (MyEventReceiver.initial h) = Some s
    /\ if MyEventReceiver.isConfigurationCompleted s
       then is_Some (MyEventReceiver.mLowBrakeGearLink s)
            /\ is_Some (MyEventReceiver.mHighBrakeGearLink s)
       else MyEventReceiver.mLowBrakeGearLink s = None
            /\ MyEventReceiver.mHighBrakeGearLink s = None.
Proof.
  destruct (run_invariant events _ (initial_invariant h)) as (s & E & [_ Hl] & _).
  exists s. split; [exact E|].
  destruct (MyEventReceiver.isConfigurationCompleted s); [|exact Hl].
  destruct Hl as (low & high & v & Hlow & Hhigh & _).
  rewrite Hlow, Hhigh. split; eauto.
Qed.

(** X7. After any sequence of events the flags 'started' and 'paused'
    are not raised together, so that the loop of [main] calls [DoStep]
    exactly when 'started' is raised. *)
Theorem stepping_follows_started_flag
    (h : gmap nat ChFunction) (events : list MyEventReceiver.SEvent) :
  exists s, MyEventReceiver.run events (MyEventReceiver.initial h) = Some s
    /\ MyEventReceiver.isSimulationStarted s && MyEventReceiver.isSimulationPaused s
       = false
    /\ MyEventReceiver.steps s = MyEventReceiver.isSimulationStarted s.
Proof.
  destruct (run_invariant events _ (initial_invariant h)) as (s & E & [Hf _] & _).
  exists s. split; [exact E|]. split; [exact Hf|].
  unfold MyEventReceiver.steps.
  destruct (MyEventReceiver.isSimulationStarted s),
           (MyEventReceiver.isSimulationPaused s); try reflexivity; discriminate.
Qed.

(** X8. Once the configuration is completed, and whatever is done to the
    sliders afterwards, the two brake gears are driven against each
    other: the speed functions of the two links are constants, and at any
    time the speed of the low gear is the opposite of the speed of the
    high gear. *)
Theorem brake_gears_counter_rotate
    (h : gmap nat ChFunction) (events : list MyEventReceiver.SEvent) :
  exists s, MyEventReceiver.run events (MyEventReceiver.initial h) = Some s
    /\ (MyEventReceiver.isConfigurationCompleted s = true ->
        exists (low high : ChLinkMotorRotationSpeed.t) (flow fhigh : ChFunction),
          MyEventReceiver.mLowBrakeGearLink s = Some low
          /\ MyEventReceiver.mHighBrakeGearLink s = Some high
          /\ deref (MyEventReceiver.functions s)
                   (ChLinkMotorRotationSpeed.GetSpeedFunction low) = Some flow
          /\ deref (MyEventReceiver.functions s)
                   (ChLinkMotorRotationSpeed.GetSpeedFunction high) = Some fhigh
          /\ forall t : Q,
               Get_y flow t = - Get_y fhigh t
               /\ Get_y_dx flow t = 0 /\ Get_y_dx fhigh t = 0).
Proof.
  destruct (run_invariant events _ (initial_invariant h)) as (s & E & [_ Hl] & _).
  exists s. split; [exact E|]. intros Hc. rewrite Hc in Hl.
  destruct Hl as (low & high & v & Hlow & Hhigh & Hfl & Hfh).
  exists low, high, (ChFunction_Const (- v)), (ChFunction_Const v).
  repeat (split; [assumption|]).
  intros t. repeat split.
Qed.

(** X9. [OnEvent] returns [true] for a click on the start button and for
    nothing else; when it does, the loop of [main] steps the simulation
    from the next pass on. *)
Theorem OnEvent_returns_true_on_start_only
    (event : MyEventReceiver.SEvent) (s s' : MyEventReceiver.t) (b : bool) :
  MyEventReceiver.OnEvent event s = Some (s', b) ->
  (b = true <-> is_start_click event)
  /\ (b = true -> MyEventReceiver.steps s' = true).
Proof.
  unfold MyEventReceiver.OnEvent, is_start_click.
  destruct (MyEventReceiver.EventType event);
    [destruct (MyEventReceiver.GUIEvent_EventType event)|].
  - destruct (MyEventReceiver.scroll_bar_changed event s); simpl;
      [intros [= <- <-]|discriminate]; split; [split|]; [discriminate| |discriminate].
    intros (_ & Habs & _). discriminate Habs.
  - intros [= <- <-]. split; [split|]; [discriminate| |discriminate].
    intros (_ & Habs & _). discriminate Habs.
  - unfold MyEventReceiver.button_clicked.
    destruct (configuration_completed_invariant event s) as (c & E & _ & _ & Hs & _).
    rewrite E. unfold MyEventReceiver.GUI_ID_BUTTON_StartSimulation in *. split_on_id;
      intros [= <- <-]; try rewrite Hs;
      (split; [split|]; [try discriminate; try (intros _; repeat split; assumption)
                        | try (intros (_ & _ & Habs); first [discriminate Habs | lia]);
                          try reflexivity
                        | try discriminate; try reflexivity]).
  - intros [= <- <-]. split; [split|]; [discriminate| |discriminate].
    intros (_ & Habs & _). discriminate Habs.
  - intros [= <- <-]. split; [split|]; [discriminate| |discriminate].
    intros (Habs & _). discriminate Habs.
Qed.

Lemma OnEvent_returns_true_on_start_only_witness :
  MyEventReceiver.OnEvent
    (sample_event MyEventReceiver.EGET_BUTTON_CLICKED 115 0)
    (MyEventReceiver.initial sample_store)
  = Some (MyEventReceiver.with_flags false true false false
            (MyEventReceiver.initial sample_store), true)
  /\ is_start_click (sample_event MyEventReceiver.EGET_BUTTON_CLICKED 115 0)
  /\ MyEventReceiver.steps
       (MyEventReceiver.with_flags false true false false
          (MyEventReceiver.initial sample_store)) = true.
Proof.
  assert (H : MyEventReceiver.OnEvent
                (sample_event MyEventReceiver.EGET_BUTTON_CLICKED 115 0)
                (MyEventReceiver.initial sample_store)
              = Some (MyEventReceiver.with_flags false true false false
                        (MyEventReceiver.initial sample_store), true))
    by reflexivity.
  split; [exact H|].
  destruct (OnEvent_returns_true_on_start_only _ _ _ _ H) as [[Hstart _] Hsteps].
  split; [exact (Hstart eq_refl) | exact (Hsteps eq_refl)].
Defined.

(** The wire keeps its measures when nothing of the wire is written. *)
Lemma positive_wire_same (s s' : MyEventReceiver.t) :
  MyEventReceiver.mwire s' = MyEventReceiver.mwire s ->
  MyEventReceiver.BeamElementLength (MyEventReceiver.mWireExtruder s')
  = MyEventReceiver.BeamElementLength (MyEventReceiver.mWireExtruder s) ->
  positive_wire s -> positive_wire s'.
Proof. unfold positive_wire. intros -> ->. tauto. Qed.

Lemma scroll_bar_changed_positive_wire (event : MyEventReceiver.SEvent)
    (s s' : MyEventReceiver.t) :
  wire_slider_in_range event -> positive_wire s ->
  MyEventReceiver.scroll_bar_changed event s = Some s' -> positive_wire s'.
Proof.
  unfold wire_slider_in_range. intros Hr (H1 & H2 & H3 & H4 & H5).
  unfold MyEventReceiver.scroll_bar_changed. split_on_id;
    try (intros [= <-]; unfold positive_wire; simpl; repeat split;
         first [ assumption
               | apply slider_value_positive;
                 [ vm_compute; reflexivity
                 | assert (10 <= MyEventReceiver.Caller_getPos event)%Z
                     by (apply Hr; lia); lia ] ]).
  unfold MyEventReceiver.brake_gear_speed_changed.
  destruct (MyEventReceiver.isConfigurationCompleted s);
    [destruct (MyEventReceiver.mLowBrakeGearLink s),
              (MyEventReceiver.mHighBrakeGearLink s)|];
    simpl; try discriminate;
    intros [= <-]; unfold positive_wire; simpl; repeat split; assumption.
Qed.

Lemma OnEvent_positive_wire (event : MyEventReceiver.SEvent)
    (s s' : MyEventReceiver.t) (b : bool) :
  wire_slider_in_range event -> positive_wire s ->
  MyEventReceiver.OnEvent event s = Some (s', b) -> positive_wire s'.
Proof.
  intros Hr Hp. unfold MyEventReceiver.OnEvent.
  destruct (MyEventReceiver.EventType event);
    [destruct (MyEventReceiver.GUIEvent_EventType event)|];
    try (intros [= <- <-]; exact Hp).
  - destruct (MyEventReceiver.scroll_bar_changed event s) as [s1|] eqn:E; simpl;
      [intros [= <- <-]|discriminate].
    exact (scroll_bar_changed_positive_wire event s s1 Hr Hp E).
  - unfold MyEventReceiver.button_clicked.
    destruct (configuration_completed_invariant event s)
      as (c & E & _ & _ & _ & _ & Hw & He).
    rewrite E. split_on_id; intros [= <- <-];
      first [ exact Hp
            | apply (positive_wire_same s); [exact Hw | rewrite He; reflexivity | exact Hp]
            | apply (positive_wire_same s); [reflexivity | reflexivity | exact Hp] ].
Qed.

(** X10. As long as the five sliders of the wire report positions of 10
    at least (their minimum), no sequence of events makes the section,
    the Young modulus, the shear modulus, the damping of the wire or the
    length of its elements zero or negative. *)
Theorem wire_stays_positive
    (h : gmap nat ChFunction) (events : list MyEventReceiver.SEvent) :
  Forall wire_slider_in_range events ->
  exists s, MyEventReceiver.run events (MyEventReceiver.initial h) = Some s
    /\ positive_wire s.
Proof.
  intros Hr.
  assert (G : forall s, Receiver_invariant s -> positive_wire s ->
            exists s', MyEventReceiver.run events s = Some s' /\ positive_wire s').
  { induction Hr as [|event events Hev _ IH]; intros s HI Hp; simpl.
    - exists s. split; [reflexivity | exact Hp].
    - destruct (OnEvent_invariant event s HI) as (s1 & b & E & HI1 & _).
      rewrite E. simpl. apply (IH s1 HI1).
      exact (OnEvent_positive_wire event s s1 b Hev Hp E). }
  apply G; [apply initial_invariant|].
  unfold positive_wire; simpl. repeat split; vm_compute; reflexivity.
Qed.

Lemma wire_stays_positive_witness :
  Forall wire_slider_in_range
    [sample_event MyEventReceiver.EGET_SCROLL_BAR_CHANGED 102 10;
     sample_event MyEventReceiver.EGET_BUTTON_CLICKED 114 0;
     sample_event MyEventReceiver.EGET_SCROLL_BAR_CHANGED 112 0]
  /\ exists s,
       MyEventReceiver.run
         [sample_event MyEventReceiver.EGET_SCROLL_BAR_CHANGED 102 10;
          sample_event MyEventReceiver.EGET_BUTTON_CLICKED 114 0;
          sample_event MyEventReceiver.EGET_SCROLL_BAR_CHANGED 112 0]
         (MyEventReceiver.initial sample_store) = Some s
       /\ positive_wire s.
Proof.
  assert (H : Forall wire_slider_in_range
                [sample_event MyEventReceiver.EGET_SCROLL_BAR_CHANGED 102 10;
                 sample_event MyEventReceiver.EGET_BUTTON_CLICKED 114 0;
                 sample_event MyEventReceiver.EGET_SCROLL_BAR_CHANGED 112 0]).
  { repeat constructor; unfold wire_slider_in_range; simpl;
      unfold MyEventReceiver.GUI_ID_SCROLLBAR_WireElementLength,
             MyEventReceiver.GUI_ID_SCROLLBAR_WireRayleighDamping; lia. }
  split; [exact H|].
  exact (wire_stays_positive sample_store _ H).
Defined.

(** A session: the Young modulus slider at its minimum, the
    configuration, then the brake gear speed slider pushed to 150. *)
Example receiver_session :
  option_map
    (fun s => (MyEventReceiver.YoungModulus (MyEventReceiver.mwire s),
               MyEventReceiver.isSimulationPaused s,
               f ← (low ← MyEventReceiver.mLowBrakeGearLink s;
                    deref (MyEventReceiver.functions s)
                      (ChLinkMotorRotationSpeed.GetSpeedFunction low));
               Some (Qred (Get_y f 0))))
    (MyEventReceiver.run
       [sample_event MyEventReceiver.EGET_SCROLL_BAR_CHANGED 102 10;
        sample_event MyEventReceiver.EGET_BUTTON_CLICKED 114 0;
        sample_event MyEventReceiver.EGET_SCROLL_BAR_CHANGED 112 150]
       (MyEventReceiver.initial sample_store))
  = Some (MyEventReceiver.slider_value 0.05e9 10, true, Some (- (3 # 10))).
Proof. vm_compute. reflexivity. Qed.

(** ** The chain of beam nodes and elements (ChronoWheelDesigner.cpp) *)

Lemma mapM_all_Some {A B : Type} (f : A -> option B) (g : A -> B) (l : list A) :
  (forall a, a ∈ l -> f a = Some (g a)) -> mapM f l = Some (g <$> l).
Proof.
  intros H. apply mapM_Some_2. induction l as [|a l IH]; simpl.
  - constructor.
  - constructor.
    + apply H. left.
    + apply IH. intros b Hb. apply H. right. exact Hb.
Qed.

Lemma create_nodes_lookup (length : Q) (N_nodes i : Z) :
  (0 <= i < N_nodes)%Z ->
  ChronoWheelDesigner.create_nodes length N_nodes !! Z.to_nat i
  = Some (ChronoWheelDesigner.position length N_nodes i).
Proof.
  intros Hi. unfold ChronoWheelDesigner.create_nodes.
  rewrite list_lookup_fmap, lookup_seqZ_lt by lia. simpl.
  f_equal. f_equal. lia.
Qed.

Lemma create_elements_Some (length : Q) (N_nodes : Z) :
  ChronoWheelDesigner.create_elements
    (ChronoWheelDesigner.create_nodes length N_nodes) N_nodes
  = Some ((fun ie : Z => (ChronoWheelDesigner.position length N_nodes ie,
                           ChronoWheelDesigner.position length N_nodes (ie + 1)))
            <$> seqZ 0 (N_nodes - 1)).
Proof.
  unfold ChronoWheelDesigner.create_elements. apply mapM_all_Some.
  intros ie Hie. apply elem_of_seqZ in Hie.
  rewrite !create_nodes_lookup by lia. reflexivity.
Qed.

(** X11. Whatever the number of nodes, the second loop never reads past
    the end of [beam_nodes]: the chain is built, with one box and one
    spherical link per node, the link of a node joining it to a box at
    its own position, and with one element less than there are nodes,
    element [k] joining node [k] to node [k + 1]. *)
Theorem chain_is_built_within_bounds (length : Q) (N_nodes : Z) :
  exists c, ChronoWheelDesigner.build length N_nodes = Some c
    /\ base.length (ChronoWheelDesigner.beam_nodes c) = Z.to_nat N_nodes
    /\ base.length (ChronoWheelDesigner.beam_nodes_boxes c) = Z.to_nat N_nodes
    /\ base.length (ChronoWheelDesigner.constraints c) = Z.to_nat N_nodes
    /\ base.length (ChronoWheelDesigner.elements c) = Z.to_nat (N_nodes - 1)
    /\ (forall (i : nat) (node : ChVector),
          ChronoWheelDesigner.beam_nodes c !! i = Some node ->
          ChronoWheelDesigner.constraints c !! i = Some (node, node))
    /\ (forall (k : nat) (e : ChVector * ChVector),
          ChronoWheelDesigner.elements c !! k = Some e ->
          ChronoWheelDesigner.beam_nodes c !! k = Some e.1
          /\ ChronoWheelDesigner.beam_nodes c !! S k = Some e.2).
Proof.
  unfold ChronoWheelDesigner.build. rewrite create_elements_Some. simpl.
  eexists. split; [reflexivity|]. simpl.
  unfold ChronoWheelDesigner.create_constraints, ChronoWheelDesigner.create_boxes.
  rewrite list_fmap_id.
  assert (Hn : base.length (ChronoWheelDesigner.create_nodes length N_nodes)
               = Z.to_nat N_nodes).
  { unfold ChronoWheelDesigner.create_nodes. rewrite length_fmap. apply length_seqZ. }
  split; [exact Hn|]. split; [exact Hn|].
  split; [rewrite length_zip_with; lia|].
  split; [rewrite length_fmap; apply length_seqZ|].
  split.
  - intros i node Hi. unfold zip. apply lookup_zip_with_Some. eauto.
  - intros k e Hk. rewrite list_lookup_fmap in Hk.
    destruct (seqZ 0 (N_nodes - 1) !! k) as [ie|] eqn:E; simpl in Hk; [|discriminate].
    injection Hk as <-. apply lookup_seqZ in E. destruct E as [-> Hlt]. simpl.
    rewrite <- (Nat2Z.id k) at 1. rewrite create_nodes_lookup by lia.
    replace (S k) with (Z.to_nat (Z.of_nat k + 1)) by lia.
    rewrite create_nodes_lookup by lia. split; reflexivity.
Qed.

(** X12. With two nodes at least and a length that is not negative, the
    chain spans the length: the first node is at x = 0, the last at
    x = length, every node lies between the two, and x never decreases
    from a node to the next ones; all nodes are at y = 0.2 and z = 0. *)
Theorem chain_spans_the_length (length : Q) (N_nodes : Z) :
  (2 <= N_nodes)%Z -> 0 <= length ->
  x (ChronoWheelDesigner.position length N_nodes 0) == 0
  /\ x (ChronoWheelDesigner.position length N_nodes (N_nodes - 1)) == length
  /\ (forall i j : Z, (i <= j)%Z ->
        x (ChronoWheelDesigner.position length N_nodes i)
        <= x (ChronoWheelDesigner.position length N_nodes j))
  /\ (forall i : Z, (0 <= i <= N_nodes - 1)%Z ->
        0 <= x (ChronoWheelDesigner.position length N_nodes i) <= length)
  /\ (forall i : Z,
        y (ChronoWheelDesigner.position length N_nodes i) = 0.2
        /\ z (ChronoWheelDesigner.position length N_nodes i) = 0).
Proof.
  intros HN HL.
  assert (Hd : 0 < inject_Z (N_nodes - 1)).
  { change 0 with (inject_Z 0). rewrite <- Zlt_Qlt. lia. }
  assert (Hd' : ~ inject_Z (N_nodes - 1) == 0).
  { intros E. rewrite E in Hd. discriminate Hd. }
  assert (H0 : x (ChronoWheelDesigner.position length N_nodes 0) == 0).
  { unfold ChronoWheelDesigner.position; simpl.
    change (inject_Z 0) with 0. field. exact Hd'. }
  assert (H1 : x (ChronoWheelDesigner.position length N_nodes (N_nodes - 1)) == length).
  { unfold ChronoWheelDesigner.position; simpl. field. exact Hd'. }
  assert (Hm : forall i j : Z, (i <= j)%Z ->
            x (ChronoWheelDesigner.position length N_nodes i)
            <= x (ChronoWheelDesigner.position length N_nodes j)).
  { intros i j Hij. unfold ChronoWheelDesigner.position; simpl.
    rewrite !(Qmult_comm length). apply Qmult_le_compat_r; [|exact HL].
    unfold Qdiv. apply Qmult_le_compat_r.
    - rewrite <- Zle_Qle. exact Hij.
    - apply Qlt_le_weak, Qinv_lt_0_compat, Hd. }
  split; [exact H0|]. split; [exact H1|]. split; [exact Hm|]. split.
  - intros i Hi. split.
    + rewrite <- H0. apply Hm. lia.
    + rewrite <- H1 at 2. apply Hm. lia.
  - intros i. split; reflexivity.
Qed.

Lemma chain_spans_the_length_witness :
  (2 <= 16)%Z /\ 0 <= 1.2
  /\ x (ChronoWheelDesigner.position 1.2 16 15) == 1.2
  /\ x (ChronoWheelDesigner.position 1.2 16 7)
     <= x (ChronoWheelDesigner.position 1.2 16 8).
Proof.
  assert (H : (2 <= 16)%Z) by lia.
  assert (G : 0 <= 1.2) by discriminate.
  split; [exact H|]. split; [exact G|].
  destruct (chain_spans_the_length 1.2 16 H G) as (_ & Hlast & Hmono & _).
  split; [exact Hlast | apply Hmono; discriminate].
Defined.

(** The chain of [main]: 16 nodes, 15 elements. *)
Example main_chain_sizes :
  option_map (fun c => (base.length (ChronoWheelDesigner.beam_nodes c),
                        base.length (ChronoWheelDesigner.elements c)))
    ChronoWheelDesigner.main_chain
  = Some (16%nat, 15%nat).
Proof. vm_compute. reflexivity. Qed.

(** With a single node the chain has no element. *)
Example single_node_chain :
  option_map ChronoWheelDesigner.elements (ChronoWheelDesigner.build 1 1) = Some [].
Proof. reflexivity. Qed.

(** ** More on the motors of ChLinkMotor.h *)

(** X13. The report of a force or torque motor is undefined exactly when
    its function pointer designates no object (null, or not in the
    store); setting a null pointer makes it so, setting the pointer of a
    live object makes it defined. *)
Theorem force_report_undefined_iff_no_function
    (h : gmap nat ChFunction)
    (ml : ChLinkMotorLinearForce.t) (mr : ChLinkMotorRotationTorque.t) :
  (ChLinkMotorLinearForce.GetActualForce h ml = None
   <-> deref h (ChLinkMotorLinearForce.GetForceFunction ml) = None)
  /\ (ChLinkMotorRotationTorque.GetActualTorque h mr = None
      <-> deref h (ChLinkMotorRotationTorque.GetTorqueFunction mr) = None)
  /\ ChLinkMotorLinearForce.GetActualForce h
       (ChLinkMotorLinearForce.SetForceFunction None ml) = None
  /\ ChLinkMotorRotationTorque.GetActualTorque h
       (ChLinkMotorRotationTorque.SetTorqueFunction None mr) = None
  /\ (forall a : nat, is_Some (h !! a) ->
        is_Some (ChLinkMotorLinearForce.GetActualForce h
                   (ChLinkMotorLinearForce.SetForceFunction (Some a) ml))
        /\ is_Some (ChLinkMotorRotationTorque.GetActualTorque h
                      (ChLinkMotorRotationTorque.SetTorqueFunction (Some a) mr))).
Proof.
  unfold ChLinkMotorLinearForce.GetActualForce,
         ChLinkMotorRotationTorque.GetActualTorque,
         ChLinkMotorLinearForce.GetForceFunction,
         ChLinkMotorRotationTorque.GetTorqueFunction.
  split; [|split; [|split; [|split]]].
  - destruct (deref h (ChLinkMotorLinearForce.f_force ml)); simpl;
      split; intros H; first [discriminate H | reflexivity].
  - destruct (deref h (ChLinkMotorRotationTorque.f_torque mr)); simpl;
      split; intros H; first [discriminate H | reflexivity].
  - reflexivity.
  - reflexivity.
  - intros a [f Hf]. simpl. rewrite Hf. simpl. split; eauto.
Qed.

(** X14. A function object is shared, not copied: a linear force motor
    and a rotation torque motor that were given the same pointer report
    the same value whenever their times agree, and when the object behind
    the pointer is changed by another holder, both report the new
    function at once, without any call on the motors. *)
Theorem motors_share_the_function_object
    (h : gmap nat ChFunction) (p : ChFunctionPtr)
    (ml : ChLinkMotorLinearForce.t) (mr : ChLinkMotorRotationTorque.t) :
  ChLinkMotorLinearForce.GetChTime ml = ChLinkMotorRotationTorque.GetChTime mr ->
  ChLinkMotorLinearForce.GetActualForce h (ChLinkMotorLinearForce.SetForceFunction p ml)
  = ChLinkMotorRotationTorque.GetActualTorque h
      (ChLinkMotorRotationTorque.SetTorqueFunction p mr)
  /\ forall (a : nat) (f' : ChFunction), p = Some a ->
       ChLinkMotorLinearForce.GetActualForce (<[a := f']> h)
         (ChLinkMotorLinearForce.SetForceFunction p ml)
       = Some (Get_y f' (ChLinkMotorLinearForce.GetChTime ml))
       /\ ChLinkMotorRotationTorque.GetActualTorque (<[a := f']> h)
            (ChLinkMotorRotationTorque.SetTorqueFunction p mr)
          = Some (Get_y f' (ChLinkMotorLinearForce.GetChTime ml)).
Proof.
  intros Ht.
  unfold ChLinkMotorLinearForce.GetActualForce,
         ChLinkMotorRotationTorque.GetActualTorque.
  unfold ChLinkMotorLinearForce.GetChTime, ChLinkMotorRotationTorque.GetChTime in *.
  simpl. rewrite Ht. split; [reflexivity|].
  intros a f' ->. simpl. rewrite lookup_insert_eq. simpl. split; reflexivity.
Qed.

Lemma motors_share_the_function_object_witness :
  ChLinkMotorLinearForce.GetChTime sample_linear_force
  = ChLinkMotorRotationTorque.GetChTime sample_rotation_torque
  /\ ChLinkMotorLinearForce.GetActualForce sample_store
       (ChLinkMotorLinearForce.SetForceFunction (Some 1%nat) sample_linear_force)
     = ChLinkMotorRotationTorque.GetActualTorque sample_store
         (ChLinkMotorRotationTorque.SetTorqueFunction (Some 1%nat) sample_rotation_torque).
Proof.
  assert (H : ChLinkMotorLinearForce.GetChTime sample_linear_force
              = ChLinkMotorRotationTorque.GetChTime sample_rotation_torque)
    by reflexivity.
  split; [exact H|].
  exact (proj1 (motors_share_the_function_object sample_store (Some 1%nat)
                  sample_linear_force sample_rotation_torque H)).
Defined.

Lemma linear_speed_setter_keeps (c : LinearSpeedCall) (m : ChLinkMotorLinearSpeed.t) :
  LS_is_setter c = true ->
  ChLinkMotorLinearSpeed.base (linear_speed_step c m) = ChLinkMotorLinearSpeed.base m
  /\ ChLinkMotorLinearSpeed.aux_dt (linear_speed_step c m) = ChLinkMotorLinearSpeed.aux_dt m
  /\ ChLinkMotorLinearSpeed.aux_dtdt (linear_speed_step c m)
     = ChLinkMotorLinearSpeed.aux_dtdt m.
Proof. destruct c; simpl; intros H; try discriminate H; repeat split. Qed.

Lemma rotation_speed_setter_keeps (c : RotationSpeedCall) (m : ChLinkMotorRotationSpeed.t) :
  RS_is_setter c = true ->
  ChLinkMotorRotationSpeed.base (rotation_speed_step c m) = ChLinkMotorRotationSpeed.base m
  /\ ChLinkMotorRotationSpeed.aux_dt (rotation_speed_step c m)
     = ChLinkMotorRotationSpeed.aux_dt m
  /\ ChLinkMotorRotationSpeed.aux_dtdt (rotation_speed_step c m)
     = ChLinkMotorRotationSpeed.aux_dtdt m.
Proof. destruct c; simpl; intros H; try discriminate H; repeat split. Qed.

(** X15. Setting up a speed motor does not disturb what it reports: after
    any sequence of calls of its three setters (speed function, offset,
    drift flag), the reported reaction, the time, the cached motion and
    the lock-pattern of the base class and the two integration states are
    what they were before the first call. *)
Theorem speed_motor_setters_keep_reports
    (csl : list LinearSpeedCall) (csr : list RotationSpeedCall)
    (ml : ChLinkMotorLinearSpeed.t) (mr : ChLinkMotorRotationSpeed.t) :
  forallb LS_is_setter csl = true -> forallb RS_is_setter csr = true ->
  (ChLinkMotorLinearSpeed.GetActualForce (linear_speed_run csl ml)
   = ChLinkMotorLinearSpeed.GetActualForce ml
   /\ ChLinkMotorLinearSpeed.base (linear_speed_run csl ml) = ChLinkMotorLinearSpeed.base ml
   /\ ChLinkMotorLinearSpeed.aux_dt (linear_speed_run csl ml)
      = ChLinkMotorLinearSpeed.aux_dt ml
   /\ ChLinkMotorLinearSpeed.aux_dtdt (linear_speed_run csl ml)
      = ChLinkMotorLinearSpeed.aux_dtdt ml)
  /\
  (ChLinkMotorRotationSpeed.GetActualTorque (rotation_speed_run csr mr)
   = ChLinkMotorRotationSpeed.GetActualTorque mr
   /\ ChLinkMotorRotationSpeed.base (rotation_speed_run csr mr)
      = ChLinkMotorRotationSpeed.base mr
   /\ ChLinkMotorRotationSpeed.aux_dt (rotation_speed_run csr mr)
      = ChLinkMotorRotationSpeed.aux_dt mr
   /\ ChLinkMotorRotationSpeed.aux_dtdt (rotation_speed_run csr mr)
      = ChLinkMotorRotationSpeed.aux_dtdt mr).
Proof.
  intros Hl Hr. split.
  - assert (G : ChLinkMotorLinearSpeed.base (linear_speed_run csl ml)
                = ChLinkMotorLinearSpeed.base ml
                /\ ChLinkMotorLinearSpeed.aux_dt (linear_speed_run csl ml)
                   = ChLinkMotorLinearSpeed.aux_dt ml
                /\ ChLinkMotorLinearSpeed.aux_dtdt (linear_speed_run csl ml)
                   = ChLinkMotorLinearSpeed.aux_dtdt ml).
    { clear Hr. revert ml Hl. induction csl as [|c cs IH]; intros m H; simpl in *.
      - repeat split.
      - apply andb_prop in H. destruct H as [Hc Hcs].
        destruct (IH (linear_speed_step c m) Hcs) as (H1 & H2 & H3).
        destruct (linear_speed_setter_keeps c m Hc) as (G1 & G2 & G3).
        rewrite H1, H2, H3, G1, G2, G3. repeat split. }
    destruct G as (G1 & G2 & G3).
    unfold ChLinkMotorLinearSpeed.GetActualForce. rewrite G1. repeat split; assumption.
  - assert (G : ChLinkMotorRotationSpeed.base (rotation_speed_run csr mr)
                = ChLinkMotorRotationSpeed.base mr
                /\ ChLinkMotorRotationSpeed.aux_dt (rotation_speed_run csr mr)
                   = ChLinkMotorRotationSpeed.aux_dt mr
                /\ ChLinkMotorRotationSpeed.aux_dtdt (rotation_speed_run csr mr)
                   = ChLinkMotorRotationSpeed.aux_dtdt mr).
    { clear Hl. revert mr Hr. induction csr as [|c cs IH]; intros m H; simpl in *.
      - repeat split.
      - apply andb_prop in H. destruct H as [Hc Hcs].
        destruct (IH (rotation_speed_step c m) Hcs) as (H1 & H2 & H3).
        destruct (rotation_speed_setter_keeps c m Hc) as (G1 & G2 & G3).
        rewrite H1, H2, H3, G1, G2, G3. repeat split. }
    destruct G as (G1 & G2 & G3).
    unfold ChLinkMotorRotationSpeed.GetActualTorque. rewrite G1. repeat split; assumption.
Qed.

Lemma speed_motor_setters_keep_reports_witness :
  forallb LS_is_setter
    [LS_SetAvoidPositionDrift false; LS_SetSpeedFunction (Some 1%nat);
     LS_SetMotionOffset 2] = true
  /\ forallb RS_is_setter [RS_SetAngleOffset 1; RS_SetSpeedFunction None] = true
  /\ ChLinkMotorLinearSpeed.GetActualForce
       (linear_speed_run
          [LS_SetAvoidPositionDrift false; LS_SetSpeedFunction (Some 1%nat);
           LS_SetMotionOffset 2] sample_linear_speed)
     = ChLinkMotorLinearSpeed.GetActualForce sample_linear_speed
  /\ ChLinkMotorRotationSpeed.GetActualTorque
       (rotation_speed_run [RS_SetAngleOffset 1; RS_SetSpeedFunction None]
          sample_rotation_speed)
     = ChLinkMotorRotationSpeed.GetActualTorque sample_rotation_speed.
Proof.
  split; [reflexivity|]. split; [reflexivity|].
  destruct (speed_motor_setters_keep_reports
              [LS_SetAvoidPositionDrift false; LS_SetSpeedFunction (Some 1%nat);
               LS_SetMotionOffset 2]
              [RS_SetAngleOffset 1; RS_SetSpeedFunction None]
              sample_linear_speed sample_rotation_speed eq_refl eq_refl)
    as [(Hl & _) (Hr & _)].
  split; [exact Hl | exact Hr].
Defined.
